(** * dblp2bibtex: a shallow embedding of the BibTeX download utility

    The script [dblp2bibtex.py] reads citation keys from a LaTeX [.aux]
    file, resolves them through alias tables and downloads the BibTeX
    records from DBLP.  This file embeds the parts of the script that
    decide these behaviours and proves properties of them.

    Text is modelled as [string]: a sequence of 8-bit characters, read as
    the code points 0..255.  Python integers are [Z]; [-1] is the result
    of a failed [str.find], as in Python. *)

From Stdlib Require Import ZArith Ascii String List Lia.
From stdpp Require Import base option list gmap strings sorting pretty.

Local Open Scope string_scope.
Local Open Scope Z_scope.

(** ** Python's string primitives *)

Module Py.

Definition newline : ascii := "010"%char.
Definition backslash : ascii := "092"%char.

(** [len(s)] *)
Definition len (s : string) : Z := Z.of_nat (String.length s).

(** [s.startswith(p)] *)
Fixpoint startswith (p s : string) : bool :=
  match p, s with
  | EmptyString, _ => true
  | String _ _, EmptyString => false
  | String a p', String b s' => if decide (a = b) then startswith p' s' else false
  end.

(** Index of the first occurrence of [sub] in [s], if there is one. *)
Fixpoint first_index (sub s : string) : option nat :=
  if startswith sub s then Some 0%nat
  else match s with
       | EmptyString => None
       | String _ s' => S <$> first_index sub s'
       end.

(** [s[n:]] for [n >= 0] *)
Fixpoint skip (n : nat) (s : string) : string :=
  match n, s with
  | O, _ => s
  | S _, EmptyString => EmptyString
  | S n', String _ s' => skip n' s'
  end.

(** [s[:n]] for [n >= 0] *)
Fixpoint keep (n : nat) (s : string) : string :=
  match n, s with
  | O, _ => EmptyString
  | S _, EmptyString => EmptyString
  | S n', String a s' => String a (keep n' s')
  end.

(** A slice bound as Python normalises it: a negative bound counts from
    the end, and the result is clamped to [0 .. len]. *)
Definition clamp (n i : Z) : Z :=
  if i <? 0 then Z.max (i + n) 0 else Z.min i n.

(** [s.find(sub, start)] *)
Definition find_from (s sub : string) (start : Z) : Z :=
  let st := if start <? 0 then Z.max (start + len s) 0 else start in
  if len s <? st then -1
  else match first_index sub (skip (Z.to_nat st) s) with
       | Some i => st + Z.of_nat i
       | None => -1
       end.

(** [s.find(sub)] *)
Definition find (s sub : string) : Z := find_from s sub 0.

(** [sub in s] *)
Definition contains (sub s : string) : bool :=
  bool_decide (is_Some (first_index sub s)).

(** [s[lo:hi]] *)
Definition slice (s : string) (lo hi : Z) : string :=
  let a := clamp (len s) lo in
  let b := clamp (len s) hi in
  keep (Z.to_nat (b - a)) (skip (Z.to_nat a) s).

(** [s[lo:]] *)
Definition slice_from (s : string) (lo : Z) : string :=
  skip (Z.to_nat (clamp (len s) lo)) s.

(** [s[:hi]] *)
Definition slice_to (s : string) (hi : Z) : string :=
  keep (Z.to_nat (clamp (len s) hi)) s.

(** [s[i]]: [None] stands for [IndexError]. *)
Definition item (s : string) (i : Z) : option ascii :=
  let j := if i <? 0 then i + len s else i in
  if (j <? 0) || (len s <=? j) then None
  else String.get (Z.to_nat j) s.

(** [c.isspace()] for a character below 256. *)
Definition isspace (c : ascii) : bool :=
  let n := N_of_ascii c in
  ((9 <=? n) && (n <=? 13) || (28 <=? n) && (n <=? 32)
   || (n =? 133) || (n =? 160))%N.

Fixpoint lstrip_by (p : ascii → bool) (s : string) : string :=
  match s with
  | EmptyString => EmptyString
  | String a s' => if p a then lstrip_by p s' else s
  end.

Fixpoint rstrip_by (p : ascii → bool) (s : string) : string :=
  match s with
  | EmptyString => EmptyString
  | String a s' =>
      match rstrip_by p s' with
      | EmptyString => if p a then EmptyString else String a EmptyString
      | r => String a r
      end
  end.

Definition strip_by (p : ascii → bool) (s : string) : string :=
  rstrip_by p (lstrip_by p s).

(** [s.strip()] *)
Definition strip (s : string) : string := strip_by isspace s.

(** [s.strip(chars)] *)
Definition strip_chars (chars s : string) : string :=
  strip_by (λ c, contains (String c EmptyString) chars) s.

(** [s.split(sep)] for a separator of one character: the pieces between
    the separators, empty pieces included; never the empty list. *)
Fixpoint split (sep : ascii) (s : string) : list string :=
  match s with
  | EmptyString => [EmptyString]
  | String a s' =>
      if decide (a = sep) then EmptyString :: split sep s'
      else match split sep s' with
           | [] => [String a EmptyString]
           | w :: ws => String a w :: ws
           end
  end.

(** [s.split()]: the maximal runs of characters that are not white
    space. *)
Fixpoint split_ws_go (cur : string) (s : string) : list string :=
  match s with
  | EmptyString => if decide (cur = EmptyString) then [] else [String.rev cur]
  | String a s' =>
      if isspace a
      then (if decide (cur = EmptyString) then [] else [String.rev cur])
             ++ split_ws_go EmptyString s'
      else split_ws_go (String a cur) s'
  end.

Definition split_ws (s : string) : list string := split_ws_go EmptyString s.

End Py.

(** ** Extraction from the [.aux] file *)

Definition find_citation (l : string) : string :=
  let x := Py.find l "\citation{" in
  if 0 <=? x then
    let y := Py.find l "{" in
    let z := Py.find_from l "}" y in
    Py.slice l (y + 1) z
  else
    let x := Py.find l "\abx@aux@cite{" in
    if 0 <=? x then
      let y := Py.find l "{" in
      let z := Py.find_from l "}" y in
      Py.slice l (y + 1) z
    else "".

(** ** strip_comments *)

Definition strip_comment (l : string) : string :=
  let pos := Py.find l "%" in
  if 0 <=? pos then Py.slice_to l pos else l.

(** ** validate_bib

    [None] stands for the [IndexError] that [tmp[0]] and [tmp[-3]] raise
    on a string that is too short; [and] evaluates [tmp[-3]] only when
    the first test holds. *)

Definition validate_bib (tmp : string) : option bool :=
  c0 ← Py.item tmp 0;
  if decide (c0 = "@"%char) then
    c3 ← Py.item tmp (-3);
    if decide (c3 = "}"%char) then Some true else Some false
  else Some false.

(** ** The regular expression [{.+,] of [download_dblp] *)

Module Re.

(** A match of [.*,] at the head of [s], the greedy way: [.] takes
    every character but the newline, and the match ends at the last
    comma that can end it.  The result is the text after the match. *)
Fixpoint dots_comma (s : string) : option string :=
  match s with
  | EmptyString => None
  | String c s' =>
      if decide (c = Py.newline) then None
      else match dots_comma s' with
           | Some r => Some r
           | None => if decide (c = ","%char) then Some s' else None
           end
  end.

(** A match of [.+,] at the head of [s]. *)
Definition dot_plus_comma (s : string) : option string :=
  match s with
  | EmptyString => None
  | String c s' => if decide (c = Py.newline) then None else dots_comma s'
  end.

(** [re.sub('{.+,', repl, s, count=1)] for a replacement [repl] that
    is taken literally: the leftmost match is replaced, and a string
    without a match is returned as it is. *)
Fixpoint sub_key (repl s : string) : string :=
  match s with
  | EmptyString => EmptyString
  | String c s' =>
      match (if decide (c = "{"%char) then dot_plus_comma s' else None) with
      | Some rest => repl ++ rest
      | None => String c (sub_key repl s')
      end
  end.

(** [re.sub] takes a replacement without a backslash literally.  With
    a backslash the library expands escapes and group references, or
    raises [re.error]; that expansion is outside this model. *)
Definition literal_template (repl : string) : bool :=
  negb (Py.contains (String Py.backslash EmptyString) repl).

End Re.

(** ** The environment and the state of a run *)

(** What the script writes to the console, and the requests it sends. *)
Inductive event : Type :=
| Print (text : string)
  (** [print(text)] *)
| PrintList (text : string) (l : list string)
  (** [print(text, l)] for a list [l] *)
| PrintFound (n : nat) (path : string)
  (** [print(f"Found {n} in {path}")] *)
| Get (url : string).
  (** [requests.get(url)] *)

Record response : Type := Response { status_code : Z; text : string }.

(** The result of [requests.get]. *)
Inductive net_result : Type :=
| NetResponse (r : response)
| NetError        (** an exception other than [KeyboardInterrupt] *)
| NetInterrupt.   (** [KeyboardInterrupt] *)

(** The world outside the script.  [files p] is the list of lines that
    iterating over [open(p)] yields when [p] names a regular file, and
    [None] when nothing has that name; [yaml_aliases p] is the mapping
    [yaml.load(open(p))["aliases"]] in the order of its items. *)
Record world : Type := World {
  files : string → option (list string);
  yaml_aliases : string → option (list (string * string));
  requests_get : string → net_result;
}.

(** The globals of the script, and its trace. *)
Record state : Type := State {
  ALIAS : gmap string string;
  REVALIAS : gmap string string;
  gBibStyle : string;
  trace : list event;
}.

Definition initial : state :=
  {| ALIAS := ∅; REVALIAS := ∅; gBibStyle := ""; trace := [] |}.

Inductive exn : Type :=
| IndexError
| FileNotFoundError
| YamlError.

(** How a piece of the script ends: it completes with a value, it ends
    the process with [sys.exit] or [exit], or an exception leaves it
    uncaught.  [Unmodelled] marks the one place where the result is
    decided by library code that is not embedded here, the expansion of a
    replacement text with a backslash by [re.sub]. *)
Inductive outcome (A : Type) : Type :=
| Return (a : A)
| SysExit (code : Z)
| Raised (e : exn)
| Unmodelled.
Arguments Return {A} a.
Arguments SysExit {A} code.
Arguments Raised {A} e.
Arguments Unmodelled {A}.

Definition Run (A : Type) : Type := state → outcome A * state.

#[export] Instance Run_ret : MRet Run := λ A a s, (Return a, s).
#[export] Instance Run_bind : MBind Run := λ A B f m s,
  match m s with
  | (Return a, s') => f a s'
  | (SysExit c, s') => (SysExit c, s')
  | (Raised e, s') => (Raised e, s')
  | (Unmodelled, s') => (Unmodelled, s')
  end.

Definition emit (e : event) : Run unit := λ s,
  (Return tt, {| ALIAS := ALIAS s; REVALIAS := REVALIAS s;
                 gBibStyle := gBibStyle s; trace := trace s ++ [e] |}).
Definition print (text : string) : Run unit := emit (Print text).
Definition sys_exit {A} (code : Z) : Run A := λ s, (SysExit code, s).
Definition raise {A} (e : exn) : Run A := λ s, (Raised e, s).
Definition unmodelled {A} : Run A := λ s, (Unmodelled, s).
Definition get_state : Run state := λ s, (Return s, s).
Definition set_gBibStyle (v : string) : Run unit := λ s,
  (Return tt, {| ALIAS := ALIAS s; REVALIAS := REVALIAS s;
                 gBibStyle := v; trace := trace s |}).
Definition set_ALIAS (k v : string) : Run unit := λ s,
  (Return tt, {| ALIAS := <[k := v]> (ALIAS s); REVALIAS := REVALIAS s;
                 gBibStyle := gBibStyle s; trace := trace s |}).
Definition set_REVALIAS (k v : string) : Run unit := λ s,
  (Return tt, {| ALIAS := ALIAS s; REVALIAS := <[k := v]> (REVALIAS s);
                 gBibStyle := gBibStyle s; trace := trace s |}).

(** [for x in l: body x] *)
Fixpoint for_each {A} (l : list A) (body : A → Run unit) : Run unit :=
  match l with
  | [] => mret tt
  | x :: l' => body x ;; for_each l' body
  end.

(** The truth value of an optional command-line string. *)
Definition given (o : option string) : bool :=
  match o with
  | Some s => bool_decide (s ≠ "")
  | None => false
  end.

(** ** The script *)

Section Script.

Variable w : world.

(** [os.path.isfile(p)] *)
Definition isfile (p : string) : bool := bool_decide (is_Some (files w p)).

(** [open(p)], iterated over: the lines of the file. *)
Definition open (p : string) : Run (list string) :=
  match files w p with
  | Some lines => mret lines
  | None => raise FileNotFoundError
  end.

(** [sorted(set(l))] *)
Definition sorted_set (l : list string) : list string :=
  merge_sort String.le (elements (list_to_set l : gset string)).

(** Lines 132 to 137 of [load_references]: from the stripped lines of the
    file to the citation keys. *)
Definition citation_keys (lines : list string) : list string :=
  let lines := find_citation <$> lines in
  let lines := Py.strip_chars " " <$> filter (λ c, c ≠ "") lines in
  let lines := Py.split "," <$> lines in
  let lines := mjoin lines in
  sorted_set lines.

Definition load_references (bibname : string) : Run (list string) :=
  if negb (isfile bibname) && negb (isfile (bibname ++ ".aux")) then
    print ("FATAL -- File " ++ bibname ++ " does not exist");;
    sys_exit 1
  else
    print ("bibcloud: parsing  " ++ bibname);;
    raw ← open bibname;
    let lines := Py.strip <$> raw in
    let bibstyleline := filter (λ x, 0 ≤ Py.find x "\bibstyle") lines in
    emit (PrintList "BIBSTYLE is " bibstyleline);;
    (if decide (length bibstyleline = 1%nat) then
       let x := Py.split "{" (bibstyleline !!! 0%nat) in
       match x !! 1%nat with
       | None => raise IndexError
       | Some x1 =>
           let x := Py.split "}" x1 in
           set_gBibStyle (x !!! 0%nat);;
           print ("BIBSTYLE (stipped) " ++ x !!! 0%nat)
       end
     else mret tt);;
    mret (citation_keys lines).

Definition urls : gmap string string :=
  <["DBLP" := "https://dblp.uni-trier.de/rec"]>
    (<["DOI" := "https://dblp.org/doi"]> ∅).

(** The key and the address that [download_dblp] computes from a
    label, lines 165 to 177. *)
Definition request_key (label : string) : string :=
  if Py.contains "DBLP:" label then Py.slice_from label 5
  else if Py.contains "DOI:" label then Py.slice_from label 4
  else label.

Definition request_url (label : string) : string :=
  let dblp := Py.contains "DBLP:" label in
  (if dblp then urls !!! "DBLP" else urls !!! "DOI")
    ++ "/" ++ request_key label ++ ".bib".

(** The tail of [download_dblp], lines 194 to 202, entered with the
    values of [ret], [err] and [bib] that the [try] statement left. *)
Definition rewrite_key (label : string) (ret : option string) (err bib : string)
  : Run (option string * string) :=
  match ret with
  | Some r =>
      if decide (r = "") then mret (ret, err)
      else
        s ← get_state;
        let rep := match REVALIAS s !! label with
                   | Some a => a
                   | None => label
                   end in
        print ("Replace " ++ label ++ " with " ++ rep);;
        let repl := "{" ++ rep ++ "," in
        if Re.literal_template repl
        then mret (Some (Re.sub_key repl bib), err)
        else unmodelled
  | None => mret (ret, err)
  end.

Definition download_dblp (label : string) : Run (option string * string) :=
  let key := request_key label in
  let _url := request_url label in
  emit (Get _url);;
  match requests_get w _url with
  | NetInterrupt => sys_exit 0
  | NetError =>
      print ("ERROR cannot fetch " ++ key);;
      rewrite_key label None "" ""
  | NetResponse resp =>
      let bib := text resp in
      let err := "ERROR key: " ++ key ++ ", url: " ++ _url in
      match validate_bib bib with
      | None =>
          print ("ERROR cannot fetch " ++ key);;
          rewrite_key label None err bib
      | Some false => mret (None, err)
      | Some true => rewrite_key label (Some bib) err bib
      end
  end.

(** *** main *)

Record arguments : Type := Args {
  keys : list string;
  aliasfile : option string;
  bibcloud : option string;
  aux : option string;
  output : string;
}.

(** Lines 358 to 372: the citations of the run. *)
Definition main_citations (args : arguments) : Run (list string) :=
  if bool_decide (length (keys args) = 0%nat)
     && negb (given (aliasfile args)) && negb (given (bibcloud args)) then
    print "ERROR: a list of keys or an alias file must be provided.";;
    sys_exit 1
  else
    latex_citations ←
      (if given (aux args) then
         cs ← load_references (default "" (aux args));
         emit (PrintFound (length cs) (default "" (aux args)));;
         mret cs
       else mret []);
    let latex_citations :=
      if bool_decide (0 < length (keys args))%nat then keys args
      else latex_citations in
    mret latex_citations.

(** Lines 382 to 394: one line of the bibcloud alias file. *)
Definition bibcloud_line (l : string) : Run unit :=
  let x := Py.split_ws l in
  if bool_decide (2 ≤ length x)%nat
     && (bool_decide (0 ≤ Py.find (x !!! 1%nat) "DBLP:")
         || bool_decide (0 ≤ Py.find (x !!! 1%nat) "DOI:")) then
    set_ALIAS (x !!! 0%nat) (x !!! 1%nat);;
    set_REVALIAS (x !!! 1%nat) (x !!! 0%nat)
  else if bool_decide (0 < length x)%nat then
    emit (PrintList "Alias parsing - bad line : " x)
  else mret tt.

(** Lines 376 to 394. *)
Definition main_bibcloud (args : arguments) : Run unit :=
  if given (bibcloud args) then
    raw ← open (default "" (bibcloud args));
    let lines := Py.strip <$> raw in
    let lines := strip_comment <$> lines in
    for_each lines bibcloud_line
  else mret tt.

(** Lines 398 to 402: one item of the mapping [aliases]. *)
Definition aliasfile_item (item : string * string) : Run unit :=
  let '(alias, key) := item in
  set_ALIAS alias key;;
  set_REVALIAS key alias;;
  if Py.contains "DBLP" key then set_REVALIAS (Py.slice_from key 5) alias
  else mret tt.

(** Lines 396 to 402. *)
Definition main_aliasfile (args : arguments) : Run unit :=
  if given (aliasfile args) then
    match yaml_aliases w (default "" (aliasfile args)) with
    | Some items => for_each items aliasfile_item
    | None => raise YamlError
    end
  else mret tt.

End Script.

(** ** The loop over the citations, and the output *)

(** [red(text)]: the text between the escape sequences for red. *)
Definition red (text : string) : string :=
  String "027" "[91m" ++ text ++ String "027" "[0m".

(** The truth value of [bib] in [if bib]. *)
Definition truthy (bib : option string) : bool :=
  match bib with
  | Some r => bool_decide (r ≠ "")
  | None => false
  end.

(** The progress line of [download_refs], line 233. *)
Definition fetch_line (i n : nat) (c : string) (bib : option string)
    (err : string) : string :=
  "Fetch " ++ pretty i ++ "/" ++ pretty n ++ ": key: " ++ c ++ " -> "
  ++ (if truthy bib then "Success" else red "Failed") ++ " "
  ++ (if truthy bib then "" else " > " ++ err).


Section Driver.

Variable w : world.

(** The loop of [download_refs], lines 231 to 236, from the citation of
    index [i] on; [total] is [len(citations)]. *)
Fixpoint download_refs_loop (total i : nat) (citations : list string)
    (fetch_data : list string) (success : nat) : Run (list string * nat) :=
  match citations with
  | [] => mret (fetch_data, success)
  | c :: citations' =>
      r ← download_dblp w c;
      print (fetch_line i total c r.1 r.2);;
      if truthy r.1
      then download_refs_loop total (S i) citations'
             (fetch_data ++ [default "" r.1]) (S success)
      else download_refs_loop total (S i) citations' fetch_data success
  end.

Definition download_refs (citations : list string) : Run (list string * nat) :=
  download_refs_loop (length citations) 0 citations [] 0%nat.


End Driver.

(** ** Notions used in the statements *)

(** The character [c] occurs in [s]. *)
Fixpoint occurs (c : ascii) (s : string) : bool :=
  match s with
  | EmptyString => false
  | String a s' => bool_decide (a = c) || occurs c s'
  end.

(** The text of [s] before its first newline. *)
Fixpoint first_line (s : string) : string :=
  match s with
  | EmptyString => EmptyString
  | String a s' =>
      if decide (a = Py.newline) then EmptyString else String a (first_line s')
  end.

(** The addresses requested in a trace, in order. *)
Definition gets (tr : list event) : list string :=
  omap (λ e, match e with Get u => Some u | _ => None end) tr.

(** The keys under which an item of the alias file with canonical key
    [key] is entered in the reverse table. *)
Definition reverse_keys (key : string) : list string :=
  key :: (if Py.contains "DBLP" key then [Py.slice_from key 5] else []).

(** [s] starts with the character [c]. *)
Definition starts_with (c : ascii) (s : string) : Prop :=
  ∃ r, s = String c r.

(** The third character from the end of [s] is [c]. *)
Definition third_from_last (c : ascii) (s : string) : Prop :=
  ∃ p a b, s = p ++ String c (String a (String b EmptyString)).

(** The extraction in the words of the specification: the text between
    the opening brace that ends the first occurrence of the marker and the
    next closing brace. *)
Definition group_after (marker l : string) : option string :=
  x ← Py.first_index marker l;
  let tail := Py.skip (x + String.length marker) l in
  z ← Py.first_index "}" tail;
  Some (Py.keep z tail).

(** The state after one item [alias: key] of the file. *)
Definition entered (alias key : string) (st : state) : state :=
  {| ALIAS := <[alias := key]> (ALIAS st);
     REVALIAS := foldl (λ m r, <[r := alias]> m) (REVALIAS st)
                   (reverse_keys key);
     gBibStyle := gBibStyle st;
     trace := trace st |}.

(** A character of [s] is white space. *)
Fixpoint has_space (s : string) : bool :=
  match s with
  | EmptyString => false
  | String a s' => Py.isspace a || has_space s'
  end.

(** The canonical key [k] has one of the two marks that the bibcloud
    parser asks for. *)
Definition marked (k : string) : Prop :=
  Py.contains "DBLP:" k = true ∨ Py.contains "DOI:" k = true.

(** The entries of the table [m] are entries of [m0] or have a marked
    canonical key; [canon] takes the canonical key from an entry. *)
Definition grown (canon : string → string → string)
    (m0 m : gmap string string) : Prop :=
  ∀ i x, m !! i = Some x → m0 !! i = Some x ∨ marked (canon i x).

(** The record that the fetcher gives for the citation [c] when the
    reverse table is that of [st]: the answer of the server with its key
    replaced, when the answer passes the check. *)
Definition fetched (w : world) (st : state) (c : string) : option string :=
  match requests_get w (request_url c) with
  | NetResponse resp =>
      if decide (validate_bib (text resp) = Some true)
      then Some (Re.sub_key ("{" ++ default c (REVALIAS st !! c) ++ ",")
                   (text resp))
      else None
  | _ => None
  end.

(** The citations of [cs] are fetched without an interrupt, and their
    new keys have no backslash. *)
Definition fetchable (w : world) (st : state) (cs : list string) : Prop :=
  ∀ c, c ∈ cs →
    requests_get w (request_url c) ≠ NetInterrupt
    ∧ occurs Py.backslash (default c (REVALIAS st !! c)) = false.

(** ** Concrete inputs *)

Definition nl : string := String Py.newline "".

(** A record as DBLP sends it. *)
Definition smith_record : string :=
  "@inproceedings{DBLP:conf/x/Smith20," ++ nl
  ++ "  title = {A Title}" ++ nl ++ "}" ++ nl ++ nl.

(** A world whose server answers every request with the same response. *)
Definition answering (code : Z) (body : string) : world :=
  {| files := λ _, None;
     yaml_aliases := λ _, None;
     requests_get := λ _, NetResponse (Response code body) |}.

Definition with_alias (key alias : string) : state :=
  {| ALIAS := {[ alias := key ]}; REVALIAS := {[ key := alias ]};
     gBibStyle := ""; trace := [] |}.

(** A directory with [paper.aux] and no [paper]. *)
Definition paper_world : world :=
  {| files := λ p, if decide (p = "paper.aux")
                   then Some ["\citation{b,a}"; "\citation{a,c}"] else None;
     yaml_aliases := λ _, None;
     requests_get := λ _, NetError |}.

Definition both_given : arguments :=
  {| keys := ["explicit"]; aliasfile := None; bibcloud := None;
     aux := Some "paper.aux"; output := "DBLP.bib" |}.

(** An alias file in the structured format. *)
Definition alias_world (items : list (string * string)) : world :=
  {| files := λ _, None;
     yaml_aliases := λ p, if decide (p = "aliases.yaml") then Some items
                          else None;
     requests_get := λ _, NetError |}.

Definition three_aliases : world :=
  alias_world [("bar", "DOI:10.1000/1"); ("foo", "DBLP:conf/x/Smith20");
               ("baz", "DOI:10.1000/2")].

Definition two_aliases : world :=
  alias_world [("a", "DOI:10.1000/182"); ("b", "DOI:10.1000/182")].

Definition with_aliasfile : arguments :=
  {| keys := []; aliasfile := Some "aliases.yaml"; bibcloud := None;
     aux := None; output := "DBLP.bib" |}.

(** An [.aux] file with a style, and one whose style line has no
    brace. *)
Definition styled_world : world :=
  {| files := λ p,
       if decide (p = "main.aux")
       then Some ["\relax " ++ nl; "\bibstyle{plain}" ++ nl;
                  "\citation{knuth84}" ++ nl]
       else if decide (p = "broken.aux")
       then Some ["\bibstyle plain" ++ nl; "\citation{knuth84}" ++ nl]
       else None;
     yaml_aliases := λ _, None;
     requests_get := λ _, NetError |}.

(** A bibcloud alias file. *)
Definition bibcloud_world : world :=
  {| files := λ p,
       if decide (p = "alias.txt")
       then Some ["% aliases of the paper" ++ nl;
                  "smith20 DBLP:conf/x/Smith20 % the main one" ++ nl;
                  nl;
                  "jones DOI:10.1000/182" ++ nl;
                  "bare 10.1000/183" ++ nl]
       else None;
     yaml_aliases := λ _, None;
     requests_get := λ _, NetError |}.

Definition with_bibcloud : arguments :=
  {| keys := []; aliasfile := None; bibcloud := Some "alias.txt";
     aux := None; output := "DBLP.bib" |}.

Definition only_aux : arguments :=
  {| keys := []; aliasfile := None; bibcloud := None;
     aux := Some "paper.aux"; output := "DBLP.bib" |}.

Definition keys_and_missing_aux : arguments :=
  {| keys := ["DBLP:conf/x/Smith20"]; aliasfile := None; bibcloud := None;
     aux := Some "thesis"; output := "DBLP.bib" |}.

(** A world in which the user interrupts every request. *)
Definition interrupted_world : world :=
  {| files := λ _, None;
     yaml_aliases := λ _, None;
     requests_get := λ _, NetInterrupt |}.

(** A record with a field on the line of its key, and a record without
    a comma. *)
Definition jones_record : string :=
  "@article{DBLP:journals/x/Jones19, year = {2019}," ++ nl
  ++ "  title = {A Title}" ++ nl ++ "}" ++ nl ++ nl.

Definition bare_record : string :=
  "@misc{DBLP:conf/x/Smith20}" ++ nl ++ nl.

(** A server that knows two records. *)
Definition library_world : world :=
  {| files := λ _, None;
     yaml_aliases := λ p,
       if decide (p = "aliases.yaml")
       then Some [("smith20", "DBLP:conf/x/Smith20")] else None;
     requests_get := λ u,
       if decide (u = "https://dblp.uni-trier.de/rec/conf/x/Smith20.bib")
       then NetResponse (Response 200 smith_record)
       else if decide (u = "https://dblp.uni-trier.de/rec/journals/x/Jones19.bib")
       then NetResponse (Response 200 jones_record)
       else if decide (u = "https://dblp.org/doi/10.1000/182.bib")
       then NetError
       else if decide (u = "https://dblp.org/doi/10.1000/999.bib")
       then NetInterrupt
       else NetResponse (Response 404 "<html>Not Found</html>") |}.

(** * Properties *)

(** ** The string primitives *)

Lemma length_app (s t : string) :
  String.length (s ++ t) = (String.length s + String.length t)%nat.
Proof.
  induction s as [|a s IH]; [done|].
  change (S (String.length (s ++ t))
          = S (String.length s + String.length t)).
  by rewrite IH.
Qed.

Lemma str_app_assoc (s t u : string) : (s ++ t) ++ u = s ++ t ++ u.
Proof.
  induction s as [|a s IH]; [done|].
  change (String a ((s ++ t) ++ u) = String a (s ++ t ++ u)). by rewrite IH.
Qed.

Lemma get_split (n : nat) (s : string) (c : ascii) :
  String.get n s = Some c →
  ∃ p q, s = p ++ String c q ∧ String.length p = n.
Proof.
  revert n. induction s as [|a s IH]; intros n H; [done|].
  destruct n as [|n]; simpl in H.
  - injection H as ->. by exists EmptyString, s.
  - destruct (IH n H) as (p & q & -> & Hp).
    exists (String a p), q. split; [done|]. simpl. by rewrite Hp.
Qed.

Lemma get_app_length (p q : string) (c : ascii) :
  String.get (String.length p) (p ++ String c q) = Some c.
Proof. induction p as [|a p IH]; [done|]. exact IH. Qed.

Lemma length_two (q : string) :
  String.length q = 2%nat → ∃ a b, q = String a (String b EmptyString).
Proof. destruct q as [|a [|b [|c q]]]; try done. eauto. Qed.

Lemma get_None (n : nat) (s : string) :
  String.get n s = None → (String.length s <= n)%nat.
Proof.
  revert n. induction s as [|a s IH]; intros n H; simpl; [lia|].
  destruct n as [|n]; [done|]. apply IH in H. lia.
Qed.

Lemma skip_app (p r : string) : Py.skip (String.length p) (p ++ r) = r.
Proof. induction p as [|a p IH]; [done|]. exact IH. Qed.

Lemma skip_S_app (p : string) (c : ascii) (r : string) :
  Py.skip (S (String.length p)) (p ++ String c r) = r.
Proof. induction p as [|a p IH]; [done|]. exact IH. Qed.

Lemma keep_app (p r : string) : Py.keep (String.length p) (p ++ r) = p.
Proof.
  induction p as [|a p IH]; [done|].
  change (String a p ++ r) with (String a (p ++ r)). simpl. by rewrite IH.
Qed.

Lemma occurs_app (c : ascii) (s t : string) :
  occurs c (s ++ t) = occurs c s || occurs c t.
Proof.
  induction s as [|a s IH]; [done|].
  change (String a s ++ t) with (String a (s ++ t)). simpl.
  by rewrite IH, orb_assoc.
Qed.

Lemma startswith_app (sub t : string) : Py.startswith sub (sub ++ t) = true.
Proof.
  induction sub as [|a sub IH]; [done|].
  change (String a sub ++ t) with (String a (sub ++ t)). simpl.
  by rewrite decide_True.
Qed.

Lemma first_index_char (c : ascii) (p t : string) :
  occurs c p = false →
  Py.first_index (String c "") (p ++ String c t) = Some (String.length p).
Proof.
  intros Hp. induction p as [|a p IH].
  - change ("" ++ String c t) with (String c t). simpl.
    by rewrite decide_True.
  - change (String a p ++ String c t) with (String a (p ++ String c t)).
    simpl in *. apply orb_false_iff in Hp as [Ha%bool_decide_eq_false Hp].
    rewrite decide_False by congruence. by rewrite (IH Hp).
Qed.

Lemma first_index_app (sub p t : string) :
  is_Some (Py.first_index sub (p ++ sub ++ t)).
Proof.
  induction p as [|a p IH].
  - change ("" ++ sub ++ t) with (sub ++ t).
    destruct (sub ++ t) eqn:E; simpl; rewrite <- E, startswith_app; eauto.
  - change (String a p ++ sub ++ t) with (String a (p ++ sub ++ t)). simpl.
    destruct (Py.startswith sub _); [eauto|]. by apply fmap_is_Some.
Qed.

Lemma contains_false (sub s : string) :
  Py.contains sub s = false ↔ Py.first_index sub s = None.
Proof.
  unfold Py.contains. rewrite bool_decide_eq_false, <- eq_None_not_Some. done.
Qed.

Lemma contains_char (c : ascii) (s : string) :
  Py.contains (String c "") s = occurs c s.
Proof.
  unfold Py.contains. induction s as [|a s IH]; [done|].
  cbn [occurs Py.first_index Py.startswith].
  destruct (decide (c = a)) as [->|Hne].
  - rewrite (bool_decide_eq_true_2 (a = a)) by done.
    apply bool_decide_eq_true_2. eauto.
  - rewrite (bool_decide_eq_false_2 (a = c)) by congruence.
    rewrite <- IH. apply bool_decide_ext. by rewrite fmap_is_Some.
Qed.

Lemma find_found (sub p t : string) : 0 ≤ Py.find (p ++ sub ++ t) sub.
Proof.
  unfold Py.find, Py.find_from. simpl.
  destruct (Z.ltb_spec (Py.len (p ++ sub ++ t)) 0) as [H|_].
  { unfold Py.len in H. lia. }
  destruct (first_index_app sub p t) as [i ->]. lia.
Qed.

Lemma slice_from_app (p r : string) : Py.slice_from (p ++ r) (Py.len p) = r.
Proof.
  unfold Py.slice_from, Py.clamp, Py.len. rewrite length_app.
  destruct (Z.ltb_spec (Z.of_nat (String.length p)) 0); [lia|].
  rewrite Z.min_l by lia. rewrite Nat2Z.id. apply skip_app.
Qed.

Lemma item_empty (i : Z) : Py.item "" i = None.
Proof.
  unfold Py.item, Py.len. change (Z.of_nat (String.length "")) with 0.
  destruct (Z.ltb_spec i 0).
  - destruct (Z.ltb_spec (i + 0) 0); [done|lia].
  - destruct (Z.ltb_spec i 0); [lia|].
    destruct (Z.leb_spec 0 i); [done|lia].
Qed.

Lemma item_first (c : ascii) (r : string) : Py.item (String c r) 0 = Some c.
Proof.
  unfold Py.item, Py.len.
  replace (Z.of_nat (String.length (String c r)) <=? 0) with false;
    [reflexivity|].
  symmetry. apply Z.leb_gt. simpl. lia.
Qed.

Lemma item_third_from_last (s : string) (c : ascii) :
  Py.item s (-3) = Some c ↔ third_from_last c s.
Proof.
  unfold Py.item, Py.len. change (-3 <? 0) with true. cbv iota. split.
  - destruct (_ || _) eqn:Hrange; [done|]. intros Hget.
    apply orb_false_iff in Hrange as [Hlo%Z.ltb_ge Hhi%Z.leb_gt].
    destruct (get_split _ _ _ Hget) as (p & q & Hs & Hp).
    assert (Hq : String.length q = 2%nat).
    { apply (f_equal String.length) in Hs. rewrite length_app in Hs.
      simpl in Hs. lia. }
    destruct (length_two q Hq) as (a & b & ->). by exists p, a, b.
  - intros (p & a & b & ->).
    assert (Hlen : String.length (p ++ String c (String a (String b "")))
                   = (String.length p + 3)%nat).
    { rewrite length_app. simpl. lia. }
    rewrite Hlen.
    replace (Z.to_nat (-3 + Z.of_nat (String.length p + 3)))
      with (String.length p) by lia.
    replace (_ || _) with false
      by (symmetry; apply orb_false_iff; split;
          [apply Z.ltb_ge | apply Z.leb_gt]; lia).
    apply get_app_length.
Qed.

Lemma item_third_None (s : string) :
  Py.item s (-3) = None ↔ (String.length s < 3)%nat.
Proof.
  unfold Py.item, Py.len. change (-3 <? 0) with true. cbv iota. split.
  - destruct (_ || _) eqn:Hrange.
    + apply orb_true_iff in Hrange as [Hlo%Z.ltb_lt | Hhi%Z.leb_le]; lia.
    + apply orb_false_iff in Hrange as [Hlo%Z.ltb_ge Hhi%Z.leb_gt].
      intros H%get_None. lia.
  - intros Hlen.
    replace (-3 + Z.of_nat (String.length s) <? 0) with true; [done|].
    symmetry. apply Z.ltb_lt. lia.
Qed.

(** ** The run monad *)

Lemma bind_Return {A B} (m : Run A) (f : A → Run B) s a s' :
  m s = (Return a, s') → (m ≫= f) s = f a s'.
Proof. intros H. unfold mbind, Run_bind. by rewrite H. Qed.

Lemma for_each_app {A} (l1 l2 : list A) (body : A → Run unit) s s1 :
  for_each l1 body s = (Return tt, s1) →
  for_each (l1 ++ l2) body s = for_each l2 body s1.
Proof.
  revert s. induction l1 as [|x l1 IH]; intros s H; simpl in *.
  - by inversion H.
  - unfold mbind, Run_bind in *.
    destruct (body x s) as [[[]| | |] s0]; try discriminate.
    by apply IH.
Qed.

(** One step of a run: the binds and the primitive actions are
    unfolded. *)
Ltac run_steps :=
  unfold mbind, Run_bind, mret, Run_ret, print, emit, sys_exit, raise,
    unmodelled, get_state, set_gBibStyle, set_ALIAS, set_REVALIAS;
  cbn [fst snd ALIAS REVALIAS gBibStyle trace].

(** ** The brace group of a citation line *)

(** What lines 99 to 101 compute on a line whose first opening brace is
    closed later on. *)
Lemma slice_first_group (p ks rest : string) :
  occurs "{" p = false →
  occurs "}" ks = false →
  let l := p ++ String "{" (ks ++ String "}" rest) in
  Py.slice l (Py.find l "{" + 1) (Py.find_from l "}" (Py.find l "{")) = ks.
Proof.
  intros Hp Hks l.
  assert (Hlen : Py.len l
                 = Z.of_nat (String.length p) + 1
                   + Z.of_nat (String.length ks) + 1 + Py.len rest).
  { unfold l, Py.len. rewrite length_app. simpl. rewrite length_app. simpl.
    lia. }
  assert (Hy : Py.find l "{" = Z.of_nat (String.length p)).
  { unfold Py.find, Py.find_from. simpl.
    destruct (Z.ltb_spec (Py.len l) 0) as [H|_]; [unfold Py.len in H; lia|].
    unfold l. by rewrite first_index_char. }
  rewrite Hy.
  assert (Hz : Py.find_from l "}" (Z.of_nat (String.length p))
               = Z.of_nat (String.length p) + 1 + Z.of_nat (String.length ks)).
  { unfold Py.find_from.
    destruct (Z.ltb_spec (Z.of_nat (String.length p)) 0) as [H|_]; [lia|].
    destruct (Z.ltb_spec (Py.len l) (Z.of_nat (String.length p))) as [H|_];
      [unfold Py.len in *; lia|].
    rewrite Nat2Z.id. unfold l. rewrite skip_app.
    change (String "{" (ks ++ String "}" rest))
      with (String "{" ks ++ String "}" rest).
    rewrite first_index_char.
    - simpl. lia.
    - simpl. by rewrite Hks. }
  rewrite Hz. unfold Py.slice, Py.clamp. rewrite Hlen.
  destruct (Z.ltb_spec (Z.of_nat (String.length p) + 1) 0) as [H|_]; [lia|].
  destruct (Z.ltb_spec (Z.of_nat (String.length p) + 1
                        + Z.of_nat (String.length ks)) 0) as [H|_]; [lia|].
  unfold Py.len. rewrite !Z.min_l by lia.
  replace (Z.to_nat (Z.of_nat (String.length p) + 1))
    with (S (String.length p)) by lia.
  replace (Z.to_nat _) with (String.length ks) by lia.
  unfold l. rewrite skip_S_app. apply keep_app.
Qed.

(** Where the script and C6 agree: on a line with no opening brace
    before the marker [\citation{], the extracted text is the text
    between the brace of the marker and the next closing brace. *)
Lemma find_citation_marker_first (pre ks rest : string) :
  occurs "{" pre = false →
  occurs "}" ks = false →
  find_citation (pre ++ "\citation{" ++ ks ++ "}" ++ rest) = ks.
Proof.
  intros Hpre Hks. unfold find_citation.
  destruct (Z.leb_spec 0
              (Py.find (pre ++ "\citation{" ++ ks ++ "}" ++ rest)
                 "\citation{")) as [_|H].
  - replace (pre ++ "\citation{" ++ ks ++ "}" ++ rest)
      with ((pre ++ "\citation") ++ String "{" (ks ++ String "}" rest))
      by (by rewrite str_app_assoc).
    apply slice_first_group; [|done].
    rewrite occurs_app, Hpre. reflexivity.
  - pose proof (find_found "\citation{" pre (ks ++ "}" ++ rest)). lia.
Qed.

(** C6, where the script fails: the opening brace is searched from the
    start of the line, not from the marker.  On a line with a brace group
    before the marker the script extracts that group, not the text
    between the brace of the marker and the next closing brace. *)
Theorem find_citation_brace_before_marker :
  0 ≤ Py.find "{x}\citation{a}" "\citation{"
  ∧ find_citation "{x}\citation{a}" = "x"
  ∧ group_after "\citation{" "{x}\citation{a}" = Some "a"
  ∧ 0 ≤ Py.find "{x}\abx@aux@cite{a}" "\abx@aux@cite{"
  ∧ find_citation "{x}\abx@aux@cite{a}" = "x"
  ∧ group_after "\abx@aux@cite{" "{x}\abx@aux@cite{a}" = Some "a".
Proof. vm_compute. repeat split; discriminate. Qed.

(** ** The citation keys *)

Lemma elem_of_sorted_set (l : list string) (k : string) :
  k ∈ sorted_set l ↔ k ∈ l.
Proof.
  unfold sorted_set.
  rewrite merge_sort_Permutation, elem_of_elements, elem_of_list_to_set.
  done.
Qed.

Lemma sorted_set_sorted (l : list string) :
  StronglySorted String.le (sorted_set l).
Proof. apply StronglySorted_merge_sort; apply _. Qed.

Lemma sorted_set_NoDup (l : list string) : NoDup (sorted_set l).
Proof.
  unfold sorted_set. rewrite merge_sort_Permutation. apply NoDup_elements.
Qed.

(** C5, as the script has it: the extractor drops the empty extracted
    texts, strips the spaces at both ends of each text that is left,
    splits each at its commas, joins the pieces into one sequence,
    removes the duplicates and sorts.  The result is in lexicographic
    order, holds each piece once, and holds exactly the pieces of the
    non-empty extracted texts; an empty piece is a piece like any other.
    The lines [\citation{b,a}] and [\citation{a,c}] give [a], [b], [c]. *)
Theorem citation_keys_spec (lines : list string) :
  StronglySorted String.le (citation_keys lines)
  ∧ NoDup (citation_keys lines)
  ∧ (∀ k, k ∈ citation_keys lines ↔
          ∃ l, l ∈ lines ∧ find_citation l ≠ ""
               ∧ k ∈ Py.split "," (Py.strip_chars " " (find_citation l)))
  ∧ citation_keys ["\citation{b,a}"; "\citation{a,c}"] = ["a"; "b"; "c"].
Proof.
  split; [apply sorted_set_sorted|].
  split; [apply sorted_set_NoDup|].
  split; [|by vm_compute].
  intros k. unfold citation_keys.
  rewrite elem_of_sorted_set, list_elem_of_join. split.
  - intros (ps & Hk & Hps).
    apply list_elem_of_fmap in Hps as (c & -> & Hc).
    apply list_elem_of_fmap in Hc as (c' & -> & Hc').
    apply list_elem_of_filter in Hc' as [Hne Hc'].
    apply list_elem_of_fmap in Hc' as (l & -> & Hl).
    by exists l.
  - intros (l & Hl & Hne & Hk).
    exists (Py.split "," (Py.strip_chars " " (find_citation l))).
    split; [done|].
    apply list_elem_of_fmap. eexists. split; [done|].
    apply list_elem_of_fmap. eexists. split; [done|].
    apply list_elem_of_filter. split; [done|].
    apply list_elem_of_fmap. by exists l.
Qed.

(** An empty piece of a brace group is a key of the result, and a space
    after a comma stays in the key: C5 says that the result never holds
    the empty string. *)
Lemma citation_keys_empty_key :
  citation_keys ["\citation{a,,b}"] = [""; "a"; "b"]
  ∧ "" ∈ citation_keys ["\citation{a,,b}"]
  ∧ citation_keys ["\citation{b, a}"] = [" a"; "b"].
Proof.
  split; [by vm_compute|]. split; [|by vm_compute].
  vm_compute. apply list_elem_of_here.
Qed.

(** ** Reading the [.aux] file *)

Section LoadReferences.

Variable w : world.

Lemma isfile_true p : isfile w p = true ↔ is_Some (files w p).
Proof. unfold isfile. by rewrite bool_decide_eq_true. Qed.

Lemma isfile_false p : isfile w p = false ↔ files w p = None.
Proof.
  unfold isfile. rewrite bool_decide_eq_false, <- eq_None_not_Some. done.
Qed.

(** Neither file exists: the run is ended with status 1. *)
Lemma load_references_fatal name st :
  files w name = None → files w (name ++ ".aux") = None →
  (load_references w name st).1 = SysExit 1.
Proof.
  intros H1%isfile_false H2%isfile_false.
  unfold load_references. by rewrite H1, H2.
Qed.

(** The file exists: its citation keys are returned, unless it has one
    [\bibstyle] line without an opening brace after which to read the
    style. *)
Lemma load_references_reads name raw st :
  files w name = Some raw →
  (∀ x, filter (λ x, 0 ≤ Py.find x "\bibstyle") (Py.strip <$> raw) = [x] →
        is_Some (Py.split "{" x !! 1%nat)) →
  (load_references w name st).1 = Return (citation_keys (Py.strip <$> raw)).
Proof.
  intros Hfile Hstyle.
  assert (Hname : isfile w name = true) by (apply isfile_true; eauto).
  unfold load_references. rewrite Hname. cbn [negb andb].
  unfold open. rewrite Hfile. run_steps.
  destruct (filter _ (Py.strip <$> raw)) as [|x [|x' bs]] eqn:Hbs;
    [done | | done].
  destruct (Hstyle x eq_refl) as [x1 Hx1].
  rewrite decide_True by done. cbn [lookup_total list_lookup_total].
  rewrite Hx1. reflexivity.
Qed.

(** C3, where the script fails: when [<name>] does not exist and
    [<name>.aux] does, [load_references] passes its existence test and
    then opens [<name>] all the same.  The run ends with the uncaught
    [FileNotFoundError]; the keys of [<name>.aux] are not produced. *)
Theorem load_references_aux_only (name : string) (st : state) :
  files w name = None →
  is_Some (files w (name ++ ".aux")) →
  (load_references w name st).1 = Raised FileNotFoundError.
Proof.
  intros H1 H2%isfile_true.
  unfold load_references. rewrite H2, andb_false_r.
  unfold open. rewrite H1. reflexivity.
Qed.

End LoadReferences.

Lemma load_references_aux_only_witness :
  files paper_world "paper" = None
  ∧ is_Some (files paper_world ("paper" ++ ".aux"))
  ∧ (load_references paper_world "paper" initial).1 = Raised FileNotFoundError
  ∧ (load_references paper_world "paper.aux" initial).1 = Return ["a"; "b"; "c"].
Proof.
  assert (H1 : files paper_world "paper" = None) by reflexivity.
  assert (H2 : is_Some (files paper_world ("paper" ++ ".aux")))
    by (vm_compute; eauto).
  split; [exact H1|]. split; [exact H2|].
  split; [exact (load_references_aux_only paper_world "paper" initial H1 H2)|].
  vm_compute. reflexivity.
Defined.

(** ** The citations of the run *)

Lemma main_citations_guard (args : arguments) :
  keys args ≠ [] ∨ given (aliasfile args) || given (bibcloud args) = true →
  bool_decide (length (keys args) = 0%nat)
  && negb (given (aliasfile args)) && negb (given (bibcloud args)) = false.
Proof.
  intros [Hk|Hal].
  - destruct (keys args); [done|]. reflexivity.
  - rewrite <- andb_assoc, <- negb_orb, Hal. apply andb_false_r.
Qed.

(** C2, as the script has it: with an aux path and something to do, the
    aux file is read first, whether there are explicit keys or not.  When
    [load_references] returns, the number of its keys is printed, and the
    citations of the run are the explicit keys whenever there are any,
    the keys of the aux file only when no explicit key is given.  When
    [load_references] ends the run or raises, so does the script, with
    explicit keys as without. *)
Theorem main_citations_priority (w : world) (args : arguments)
    (st : state) :
  given (aux args) = true →
  keys args ≠ [] ∨ given (aliasfile args) || given (bibcloud args) = true →
  (∀ cs st',
     load_references w (default "" (aux args)) st = (Return cs, st') →
     (main_citations w args st).1
     = Return (if decide (keys args = []) then cs else keys args)
     ∧ ALIAS (main_citations w args st).2 = ALIAS st'
     ∧ REVALIAS (main_citations w args st).2 = REVALIAS st'
     ∧ gBibStyle (main_citations w args st).2 = gBibStyle st'
     ∧ trace (main_citations w args st).2
       = (trace st' ++ [PrintFound (length cs) (default "" (aux args))])%list)
  ∧ (∀ o st',
       load_references w (default "" (aux args)) st = (o, st') →
       (∀ cs, o ≠ Return cs) →
       main_citations w args st = (o, st')).
Proof.
  intros Haux Hdo. unfold main_citations.
  rewrite (main_citations_guard args Hdo), Haux. split.
  - intros cs st' Hload. unfold mbind, Run_bind. rewrite Hload. simpl.
    split; [|done].
    destruct (keys args) as [|k ks]; reflexivity.
  - intros o st' Hload Hno. unfold mbind, Run_bind. rewrite Hload.
    destruct o as [cs| | |]; [by destruct (Hno cs) | done..].
Qed.

Lemma main_citations_priority_witness :
  given (aux both_given) = true
  ∧ keys both_given ≠ []
  ∧ (main_citations paper_world both_given initial).1
    = Return (keys both_given)
  ∧ trace (main_citations paper_world both_given initial).2
    = [Print "bibcloud: parsing  paper.aux"; PrintList "BIBSTYLE is " [];
       PrintFound 3 "paper.aux"]
  ∧ given (aux keys_and_missing_aux) = true
  ∧ keys keys_and_missing_aux ≠ []
  ∧ (main_citations paper_world keys_and_missing_aux initial).1 = SysExit 1.
Proof.
  assert (H1 : given (aux both_given) = true) by reflexivity.
  assert (H2 : keys both_given ≠ []) by discriminate.
  assert (H3 : given (aux keys_and_missing_aux) = true) by reflexivity.
  assert (H4 : keys keys_and_missing_aux ≠ []) by discriminate.
  destruct (main_citations_priority paper_world both_given initial H1
              (or_introl H2)) as [Hret _].
  destruct (Hret ["a"; "b"; "c"]
              (load_references paper_world "paper.aux" initial).2)
    as (Ho & _ & _ & _ & Htr); [vm_compute; reflexivity|].
  destruct (main_citations_priority paper_world keys_and_missing_aux initial
              H3 (or_introl H4)) as [_ Hfail].
  pose proof (Hfail (SysExit 1)
                (load_references paper_world "thesis" initial).2) as Hexit.
  split; [exact H1|]. split; [exact H2|].
  split; [exact Ho|]. split; [exact Htr|].
  split; [exact H3|]. split; [exact H4|].
  rewrite Hexit; [reflexivity | vm_compute; reflexivity | discriminate].
Defined.

(** With both an aux path and explicit keys, the citations of the run
    are the explicit keys, not the keys of the aux file. *)
Lemma main_citations_both_given :
  (load_references paper_world "paper.aux" initial).1 = Return ["a"; "b"; "c"]
  ∧ (main_citations paper_world both_given initial).1 = Return ["explicit"]
  ∧ (main_citations paper_world both_given initial).1
    ≠ (load_references paper_world "paper.aux" initial).1.
Proof. vm_compute. repeat split; discriminate. Qed.

(** ** The bibcloud alias file *)

(** C9, as the script has it: a line of the bibcloud alias file that
    splits into fewer than two tokens creates no alias entry and does not
    stop the run; it is skipped without a message when it has no token,
    and reported as a bad line when it has one. *)
Theorem bibcloud_line_short (l : string) (st : state) :
  (length (Py.split_ws l) < 2)%nat →
  (bibcloud_line l st).1 = Return tt
  ∧ ALIAS (bibcloud_line l st).2 = ALIAS st
  ∧ REVALIAS (bibcloud_line l st).2 = REVALIAS st
  ∧ trace (bibcloud_line l st).2
    = (trace st
       ++ (if decide (Py.split_ws l = []) then []
           else [PrintList "Alias parsing - bad line : " (Py.split_ws l)]))%list.
Proof.
  intros Hlen. unfold bibcloud_line.
  destruct (Py.split_ws l) as [|x0 [|x1 xs]] eqn:Hx; simpl in Hlen; try lia.
  - simpl. by rewrite app_nil_r.
  - done.
Qed.

Lemma bibcloud_line_short_witness :
  (length (Py.split_ws "solo") < 2)%nat
  ∧ (bibcloud_line "solo" initial).1 = Return tt
  ∧ ALIAS (bibcloud_line "solo" initial).2 = ALIAS initial
  ∧ REVALIAS (bibcloud_line "solo" initial).2 = REVALIAS initial
  ∧ trace (bibcloud_line "solo" initial).2
    = (trace initial
       ++ (if decide (Py.split_ws "solo" = []) then []
           else [PrintList "Alias parsing - bad line : "
                   (Py.split_ws "solo")]))%list.
Proof.
  assert (H : (length (Py.split_ws "solo") < 2)%nat) by (vm_compute; lia).
  split; [exact H | exact (bibcloud_line_short "solo" initial H)].
Defined.

(** A line with one token is reported: the warning that C9 excludes. *)
Lemma bibcloud_line_one_token_warns :
  strip_comment "foo % no key yet" = "foo "
  ∧ Py.split_ws "foo " = ["foo"]
  ∧ trace (bibcloud_line "foo " initial).2
    = [PrintList "Alias parsing - bad line : " ["foo"]]
  ∧ trace (bibcloud_line "foo " initial).2 ≠ trace initial.
Proof. vm_compute. repeat split; discriminate. Qed.

(** ** The structured alias file *)

Lemma aliasfile_item_run (alias key : string) (st : state) :
  aliasfile_item (alias, key) st = (Return tt, entered alias key st).
Proof.
  unfold aliasfile_item, entered, reverse_keys.
  run_steps. simpl.
  by destruct (Py.contains "DBLP" key).
Qed.

Lemma aliasfile_items_cons (alias key : string)
    (items : list (string * string)) (st : state) :
  for_each ((alias, key) :: items) aliasfile_item st
  = for_each items aliasfile_item (entered alias key st).
Proof.
  change (for_each ((alias, key) :: items) aliasfile_item)
    with (aliasfile_item (alias, key) ;; for_each items aliasfile_item).
  exact (bind_Return (aliasfile_item (alias, key))
           (λ _, for_each items aliasfile_item) st tt _
           (aliasfile_item_run alias key st)).
Qed.

Lemma lookup_foldl_insert_ne (alias r : string) (rs : list string)
    (m : gmap string string) :
  r ∉ rs → foldl (λ m r', <[r' := alias]> m) m rs !! r = m !! r.
Proof.
  revert m. induction rs as [|r' rs IH]; intros m Hr; [done|]. simpl.
  apply not_elem_of_cons in Hr as [Hne Hr].
  rewrite (IH _ Hr). by rewrite lookup_insert_ne.
Qed.

Lemma lookup_foldl_insert (alias r : string) (rs : list string)
    (m : gmap string string) :
  r ∈ rs → foldl (λ m r', <[r' := alias]> m) m rs !! r = Some alias.
Proof.
  revert m. induction rs as [|r' rs IH]; intros m Hr; [by inversion Hr|].
  simpl. destruct (decide (r ∈ rs)) as [Hin|Hnin]; [by apply IH|].
  rewrite lookup_foldl_insert_ne by done.
  apply elem_of_cons in Hr as [->|?]; [|done]. apply lookup_insert_eq.
Qed.

(** The items of the file are all entered: the loop does not stop. *)
Lemma aliasfile_items_Return (items : list (string * string)) (st : state) :
  (for_each items aliasfile_item st).1 = Return tt.
Proof.
  revert st. induction items as [|[a k] items IH]; intros st; [done|].
  rewrite aliasfile_items_cons. apply IH.
Qed.

(** Later items leave an alias alone when none of them has it. *)
Lemma aliasfile_items_ALIAS (items : list (string * string)) (st : state)
    (alias : string) :
  Forall (λ it, it.1 ≠ alias) items →
  ALIAS (for_each items aliasfile_item st).2 !! alias = ALIAS st !! alias.
Proof.
  revert st. induction items as [|[a k] items IH]; intros st Hall; [done|].
  apply Forall_cons in Hall as [Hne Hall]. simpl in Hne.
  rewrite aliasfile_items_cons, (IH _ Hall). simpl.
  by rewrite lookup_insert_ne.
Qed.

(** Later items leave a key of the reverse table alone when none of them
    enters it. *)
Lemma aliasfile_items_REVALIAS (items : list (string * string)) (st : state)
    (r : string) :
  Forall (λ it, r ∉ reverse_keys it.2) items →
  REVALIAS (for_each items aliasfile_item st).2 !! r = REVALIAS st !! r.
Proof.
  revert st. induction items as [|[a k] items IH]; intros st Hall; [done|].
  apply Forall_cons in Hall as [Hne Hall]. simpl in Hne.
  rewrite aliasfile_items_cons, (IH _ Hall).
  unfold entered. cbn [REVALIAS]. by apply lookup_foldl_insert_ne.
Qed.

(** C7, as the script has it: for an item [alias: key] of the structured
    alias file, the forward table maps [alias] to [key], the reverse
    table maps [key] to [alias] and, when [key] contains [DBLP], also
    [key] without its first five characters to [alias], provided that no
    later item of the file has this alias or enters one of these keys in
    the reverse table: the last entry for a key is the one that stays. *)
Theorem main_aliasfile_tables (w : world) (args : arguments) (st : state)
    (path : string) (before after : list (string * string))
    (alias key : string) :
  aliasfile args = Some path → path ≠ "" →
  yaml_aliases w path = Some (before ++ (alias, key) :: after)%list →
  Forall (λ it, it.1 ≠ alias) after →
  Forall (λ it, ∀ r, r ∈ reverse_keys key → r ∉ reverse_keys it.2) after →
  (main_aliasfile w args st).1 = Return tt
  ∧ ALIAS (main_aliasfile w args st).2 !! alias = Some key
  ∧ REVALIAS (main_aliasfile w args st).2 !! key = Some alias
  ∧ (Py.contains "DBLP" key = true →
     REVALIAS (main_aliasfile w args st).2 !! Py.slice_from key 5
     = Some alias).
Proof.
  intros Hpath Hne Hyaml Halias Hrev.
  unfold main_aliasfile. rewrite Hpath. simpl.
  rewrite bool_decide_eq_true_2 by done. rewrite Hyaml.
  split; [apply aliasfile_items_Return|].
  destruct (for_each before aliasfile_item st) as [o s1] eqn:Hbefore.
  pose proof (aliasfile_items_Return before st) as Ho.
  rewrite Hbefore in Ho. simpl in Ho. subst o.
  rewrite (for_each_app _ _ _ _ _ Hbefore), aliasfile_items_cons.
  assert (Hkeep : ∀ r, r ∈ reverse_keys key →
            REVALIAS (for_each after aliasfile_item (entered alias key s1)).2
              !! r = Some alias).
  { intros r Hr. rewrite aliasfile_items_REVALIAS.
    - by apply lookup_foldl_insert.
    - eapply Forall_impl; [exact Hrev|]. intros it Hit. by apply Hit. }
  split; [|split].
  - rewrite (aliasfile_items_ALIAS _ _ _ Halias). apply lookup_insert_eq.
  - apply Hkeep. unfold reverse_keys. apply list_elem_of_here.
  - intros HD. apply Hkeep. unfold reverse_keys. rewrite HD.
    apply list_elem_of_further, list_elem_of_here.
Qed.

Lemma main_aliasfile_tables_witness :
  aliasfile with_aliasfile = Some "aliases.yaml"
  ∧ yaml_aliases three_aliases "aliases.yaml"
    = Some ([("bar", "DOI:10.1000/1")]
            ++ ("foo", "DBLP:conf/x/Smith20") :: [("baz", "DOI:10.1000/2")])%list
  ∧ (main_aliasfile three_aliases with_aliasfile initial).1 = Return tt
  ∧ ALIAS (main_aliasfile three_aliases with_aliasfile initial).2 !! "foo"
    = Some "DBLP:conf/x/Smith20"
  ∧ REVALIAS (main_aliasfile three_aliases with_aliasfile initial).2
      !! "DBLP:conf/x/Smith20" = Some "foo"
  ∧ REVALIAS (main_aliasfile three_aliases with_aliasfile initial).2
      !! "conf/x/Smith20" = Some "foo".
Proof.
  assert (Halias : Forall (λ it : string * string, it.1 ≠ "foo")
                     [("baz", "DOI:10.1000/2")])
    by (repeat constructor; discriminate).
  assert (Hrev : Forall (λ it : string * string,
                    ∀ r, r ∈ reverse_keys "DBLP:conf/x/Smith20" →
                         r ∉ reverse_keys it.2)
                   [("baz", "DOI:10.1000/2")]).
  { repeat constructor.
    intros r Hr%list_elem_of_In Hr'%list_elem_of_In.
    vm_compute in Hr, Hr'. intuition congruence. }
  pose proof (main_aliasfile_tables three_aliases with_aliasfile initial
                "aliases.yaml" [("bar", "DOI:10.1000/1")]
                [("baz", "DOI:10.1000/2")] "foo" "DBLP:conf/x/Smith20"
                eq_refl ltac:(discriminate) eq_refl Halias Hrev)
    as (H1 & H2 & H3 & H4).
  split; [reflexivity|]. split; [reflexivity|].
  split; [exact H1|]. split; [exact H2|].
  split; [exact H3 | exact (H4 eq_refl)].
Defined.

(** Two items with one canonical key: the reverse table maps the key to
    the alias of the second item, not to that of the first. *)
Lemma main_aliasfile_last_wins :
  yaml_aliases two_aliases "aliases.yaml"
  = Some [("a", "DOI:10.1000/182"); ("b", "DOI:10.1000/182")]
  ∧ ALIAS (main_aliasfile two_aliases with_aliasfile initial).2 !! "a"
    = Some "DOI:10.1000/182"
  ∧ REVALIAS (main_aliasfile two_aliases with_aliasfile initial).2
      !! "DOI:10.1000/182" = Some "b"
  ∧ REVALIAS (main_aliasfile two_aliases with_aliasfile initial).2
      !! "DOI:10.1000/182" ≠ Some "a".
Proof. vm_compute. repeat split; discriminate. Qed.

(** ** The structural check *)

(** The check accepts exactly the texts that start with [@] and have [}]
    as their third character from the end. *)
Lemma validate_bib_true (tmp : string) :
  validate_bib tmp = Some true ↔
  starts_with "@" tmp ∧ third_from_last "}" tmp.
Proof.
  unfold validate_bib. rewrite <- item_third_from_last.
  destruct tmp as [|c0 r].
  - rewrite item_empty. split; [done|]. by intros [[? ?] _].
  - rewrite item_first. simpl.
    destruct (decide (c0 = "@"%char)) as [->|Hc].
    + destruct (Py.item _ (-3)) as [c3|]; simpl.
      * destruct (decide (c3 = "}"%char)) as [->|]; split; try done.
        -- intros _. split; [by exists r|done].
        -- intros [_ ?]. congruence.
      * split; [done|]. by intros [_ ?].
    + split; [done|]. intros [[r' ?] _]. congruence.
Qed.

(** The texts on which the check raises [IndexError]. *)
Lemma validate_bib_raises (tmp : string) :
  validate_bib tmp = None ↔
  tmp = "" ∨ (starts_with "@" tmp ∧ (String.length tmp < 3)%nat).
Proof.
  unfold validate_bib. rewrite <- item_third_None.
  destruct tmp as [|c0 r].
  - rewrite item_empty. split; [by left|done].
  - rewrite item_first. simpl.
    destruct (decide (c0 = "@"%char)) as [->|Hc].
    + destruct (Py.item _ (-3)) as [c3|]; simpl.
      * split.
        -- by destruct (decide (c3 = "}"%char)).
        -- intros [?|[_ ?]]; done.
      * split; [|done]. intros _. right. split; [by exists r|done].
    + split; [done|]. intros [?|[[r' ?] _]]; congruence.
Qed.

(** ** The record fetcher *)

Section Fetch.

Variable w : world.

Lemma gets_snoc_Get tr u : gets (tr ++ [Get u]) = (gets tr ++ [u])%list.
Proof. unfold gets. by rewrite omap_app. Qed.

Lemma gets_snoc_Print tr t : gets (tr ++ [Print t]) = gets tr.
Proof. unfold gets. rewrite omap_app. simpl. by rewrite app_nil_r. Qed.

(** Every call sends one request, to the address computed from the
    label. *)
Lemma download_dblp_gets (label : string) (st : state) :
  gets (trace (download_dblp w label st).2)
  = (gets (trace st) ++ [request_url label])%list.
Proof.
  unfold download_dblp, rewrite_key.
  run_steps; simpl.
  destruct (requests_get w (request_url label)) as [resp| |]; simpl;
    rewrite ?gets_snoc_Print, ?gets_snoc_Get; try done.
  destruct (validate_bib (text resp)) as [[|]|]; simpl;
    rewrite ?gets_snoc_Print, ?gets_snoc_Get; try done.
  destruct (decide (text resp = "")); simpl;
    rewrite ?gets_snoc_Print, ?gets_snoc_Get; try done.
  destruct (Re.literal_template _); simpl;
    rewrite ?gets_snoc_Print, ?gets_snoc_Get; done.
Qed.

(** A response that the check does not accept: no record, and the error
    text with the key and the address. *)
Lemma download_dblp_invalid (label : string) (st : state) (resp : response) :
  requests_get w (request_url label) = NetResponse resp →
  validate_bib (text resp) ≠ Some true →
  (download_dblp w label st).1
  = Return (None, "ERROR key: " ++ request_key label
                    ++ ", url: " ++ request_url label).
Proof.
  intros Hget Hbad. unfold download_dblp, rewrite_key.
  run_steps; simpl.
  rewrite Hget.
  destruct (validate_bib (text resp)) as [[|]|]; done.
Qed.

(** A response that the check accepts: the record with its key
    rewritten. *)
Lemma download_dblp_valid (label : string) (st : state) (resp : response) :
  requests_get w (request_url label) = NetResponse resp →
  validate_bib (text resp) = Some true →
  let rep := default label (REVALIAS st !! label) in
  Re.literal_template ("{" ++ rep ++ ",") = true →
  (download_dblp w label st).1
  = Return (Some (Re.sub_key ("{" ++ rep ++ ",") (text resp)),
            "ERROR key: " ++ request_key label
              ++ ", url: " ++ request_url label).
Proof.
  intros Hget Hok rep Hlit. unfold download_dblp, rewrite_key.
  run_steps; simpl.
  rewrite Hget, Hok.
  destruct (decide (text resp = "")) as [He|_].
  { rewrite He in Hok. done. }
  simpl. fold rep.
  replace (match REVALIAS st !! label with Some a => a | None => label end)
    with rep by (unfold rep; by destruct (REVALIAS st !! label)).
  by rewrite Hlit.
Qed.

(** *** The address requested *)

Lemma request_url_DBLP (label : string) :
  Py.contains "DBLP:" label = true →
  request_url label
  = "https://dblp.uni-trier.de/rec/" ++ Py.slice_from label 5 ++ ".bib".
Proof. intros H. unfold request_url, request_key. rewrite H. reflexivity. Qed.

Lemma request_url_DOI (label : string) :
  Py.contains "DBLP:" label = false →
  Py.contains "DOI:" label = true →
  request_url label
  = "https://dblp.org/doi/" ++ Py.slice_from label 4 ++ ".bib".
Proof.
  intros H1 H2. unfold request_url, request_key. rewrite H1, H2. reflexivity.
Qed.

Lemma request_url_bare (label : string) :
  Py.contains "DBLP:" label = false →
  Py.contains "DOI:" label = false →
  request_url label = "https://dblp.org/doi/" ++ label ++ ".bib".
Proof.
  intros H1 H2. unfold request_url, request_key. rewrite H1, H2. reflexivity.
Qed.

(** What the fetcher requests: it sends one request.  A label
    that contains [DBLP:], at any place, loses its first five characters
    and goes to the address of DBLP records; otherwise a label that
    contains [DOI:], at any place, loses its first four characters and
    goes to the DOI address; a label that contains neither goes to the
    DOI address as it is.  So a label that starts with [DBLP:] loses that
    prefix, and so does a label that starts with [DOI:] and has no
    [DBLP:] in it. *)
Theorem download_dblp_request (label k : string) (st : state) :
  gets (trace (download_dblp w label st).2)
  = (gets (trace st) ++ [request_url label])%list
  ∧ (Py.contains "DBLP:" label = true →
     request_url label
     = "https://dblp.uni-trier.de/rec/" ++ Py.slice_from label 5 ++ ".bib")
  ∧ (Py.contains "DBLP:" label = false → Py.contains "DOI:" label = true →
     request_url label
     = "https://dblp.org/doi/" ++ Py.slice_from label 4 ++ ".bib")
  ∧ (Py.contains "DBLP:" label = false → Py.contains "DOI:" label = false →
     request_url label = "https://dblp.org/doi/" ++ label ++ ".bib")
  ∧ (label = "DBLP:" ++ k →
     request_url label = "https://dblp.uni-trier.de/rec/" ++ k ++ ".bib")
  ∧ (label = "DOI:" ++ k → Py.contains "DBLP:" k = false →
     request_url label = "https://dblp.org/doi/" ++ k ++ ".bib").
Proof.
  split; [apply download_dblp_gets|].
  split; [apply request_url_DBLP|].
  split; [apply request_url_DOI|].
  split; [apply request_url_bare|].
  split.
  - intros ->. rewrite request_url_DBLP by reflexivity.
    pose proof (slice_from_app "DBLP:" k) as H.
    change (Py.len "DBLP:") with 5 in H. by rewrite H.
  - intros -> Hk. rewrite request_url_DOI.
    + pose proof (slice_from_app "DOI:" k) as H.
      change (Py.len "DOI:") with 4 in H. by rewrite H.
    + apply contains_false. apply contains_false in Hk.
      change ("DOI:" ++ k)
        with (String "D" (String "O" (String "I" (String ":" k)))).
      cbn. by rewrite Hk.
    + reflexivity.
Qed.

(** *** The structural check in the fetcher *)

(** C8: a response body that does not start with [@], or whose third
    character from the end is not [}], is rejected whatever the status
    code of the response: the fetcher returns no record, with the error
    text that names the key and the address requested. *)
Theorem download_dblp_rejects (label : string) (st : state)
    (code : Z) (body : string) :
  requests_get w (request_url label) = NetResponse (Response code body) →
  ¬ starts_with "@" body ∨ ¬ third_from_last "}" body →
  (download_dblp w label st).1
  = Return (None, "ERROR key: " ++ request_key label
                    ++ ", url: " ++ request_url label).
Proof.
  intros Hget Hbad.
  apply (download_dblp_invalid label st _ Hget). simpl.
  rewrite validate_bib_true. tauto.
Qed.

(** C10: on the empty body, and on a body of one or two characters that
    starts with [@], the check raises [IndexError] and does not return
    [False]; the handler of the fetcher catches it, reports the key, and
    the fetcher returns without a record. *)
Theorem download_dblp_short_body (label : string) (st : state)
    (code : Z) (body : string) :
  requests_get w (request_url label) = NetResponse (Response code body) →
  body = "" ∨ (starts_with "@" body ∧ (Py.len body = 1 ∨ Py.len body = 2)) →
  validate_bib body = None
  ∧ (download_dblp w label st).1
    = Return (None, "ERROR key: " ++ request_key label
                      ++ ", url: " ++ request_url label)
  ∧ trace (download_dblp w label st).2
    = (trace st ++ [Get (request_url label);
                    Print ("ERROR cannot fetch " ++ request_key label)])%list.
Proof.
  intros Hget Hshort.
  assert (Hraise : validate_bib body = None).
  { apply validate_bib_raises.
    destruct Hshort as [?|[? Hlen]]; [by left|right].
    split; [done|]. unfold Py.len in Hlen. lia. }
  split; [done|]. split.
  - apply (download_dblp_invalid label st _ Hget). simpl. by rewrite Hraise.
  - unfold download_dblp, rewrite_key.
    run_steps; simpl.
    rewrite Hget. simpl. rewrite Hraise. simpl. by rewrite <- app_assoc.
Qed.

(** *** The rewriting of the key *)

Lemma dots_comma_None (s : string) :
  occurs "," (first_line s) = false → Re.dots_comma s = None.
Proof.
  induction s as [|a s IH]; [done|]. simpl.
  destruct (decide (a = Py.newline)); [done|]. simpl.
  intros [Ha%bool_decide_eq_false Hs]%orb_false_iff.
  rewrite (IH Hs). by rewrite decide_False.
Qed.

Lemma dots_comma_key (old rest : string) :
  occurs Py.newline old = false →
  occurs "," (first_line rest) = false →
  Re.dots_comma (old ++ String "," rest) = Some rest.
Proof.
  intros Hnl Hrest. induction old as [|a old IH].
  - change (Re.dots_comma (String "," rest) = Some rest). simpl.
    by rewrite (dots_comma_None rest Hrest).
  - change (Re.dots_comma (String a (old ++ String "," rest)) = Some rest).
    simpl in *. apply orb_false_iff in Hnl as [Ha%bool_decide_eq_false Hnl].
    rewrite decide_False by done. by rewrite (IH Hnl).
Qed.

Lemma dot_plus_comma_key (old rest : string) :
  old ≠ "" →
  occurs Py.newline old = false →
  occurs "," (first_line rest) = false →
  Re.dot_plus_comma (old ++ String "," rest) = Some rest.
Proof.
  intros Hne Hnl Hrest. destruct old as [|a old]; [done|].
  change (Re.dot_plus_comma (String a (old ++ String "," rest)) = Some rest).
  simpl in *. apply orb_false_iff in Hnl as [Ha%bool_decide_eq_false Hnl].
  rewrite decide_False by done. by apply dots_comma_key.
Qed.

(** The replacement of the key in a record whose first brace opens the
    key, the key being the text up to the only comma of its line. *)
Lemma sub_key_first (repl pre old rest : string) :
  occurs "{" pre = false →
  old ≠ "" →
  occurs Py.newline old = false →
  occurs "," (first_line rest) = false →
  Re.sub_key repl (pre ++ String "{" (old ++ String "," rest))
  = pre ++ repl ++ rest.
Proof.
  intros Hpre Hne Hnl Hrest. induction pre as [|a pre IH].
  - change (Re.sub_key repl (String "{" (old ++ String "," rest))
            = repl ++ rest).
    simpl. by rewrite dot_plus_comma_key.
  - change (Re.sub_key repl
              (String a (pre ++ String "{" (old ++ String "," rest)))
            = String a (pre ++ repl ++ rest)).
    simpl in *. apply orb_false_iff in Hpre as [Ha%bool_decide_eq_false Hpre].
    rewrite decide_False by done. by rewrite (IH Hpre).
Qed.

Lemma literal_template_key (rep : string) :
  occurs Py.backslash rep = false →
  Re.literal_template ("{" ++ rep ++ ",") = true.
Proof.
  intros H. unfold Re.literal_template.
  rewrite contains_char, !occurs_app, H. reflexivity.
Qed.

(** C1, as the script has it: for a response body that passes the check
    and whose first opening brace is followed by the old key and a comma,
    the only comma of that line, the fetcher returns the record with the
    old key replaced and everything else as it was.  The new key is the
    alias of the input label when the label is in the reverse alias
    table, and otherwise the input label itself, with its prefix. *)
Theorem download_dblp_rewrites_key (label : string) (st : state)
    (code : Z) (pre old rest rep : string) :
  requests_get w (request_url label)
  = NetResponse (Response code (pre ++ "{" ++ old ++ "," ++ rest)) →
  validate_bib (pre ++ "{" ++ old ++ "," ++ rest) = Some true →
  rep = default label (REVALIAS st !! label) →
  occurs "{" pre = false →
  old ≠ "" →
  occurs Py.newline old = false →
  occurs "," old = false →
  occurs "," (first_line rest) = false →
  occurs Py.backslash rep = false →
  (download_dblp w label st).1
  = Return (Some (pre ++ "{" ++ rep ++ "," ++ rest),
            "ERROR key: " ++ request_key label
              ++ ", url: " ++ request_url label).
Proof.
  intros Hget Hok -> Hpre Hne Hnl _ Hrest Hrep.
  rewrite (download_dblp_valid label st _ Hget Hok
             (literal_template_key _ Hrep)).
  simpl text.
  change (pre ++ "{" ++ old ++ "," ++ rest)
    with (pre ++ String "{" (old ++ String "," rest)).
  rewrite sub_key_first by done.
  by rewrite !str_app_assoc.
Qed.

End Fetch.

(** *** The fetcher on concrete responses *)

Lemma download_dblp_request_witness :
  "DBLP:conf/x/Smith20" = "DBLP:" ++ "conf/x/Smith20"
  ∧ request_url "DBLP:conf/x/Smith20"
    = "https://dblp.uni-trier.de/rec/" ++ "conf/x/Smith20" ++ ".bib".
Proof.
  assert (H : "DBLP:conf/x/Smith20" = "DBLP:" ++ "conf/x/Smith20")
    by reflexivity.
  split; [exact H|].
  exact (proj1 (proj2 (proj2 (proj2 (proj2
    (download_dblp_request (answering 200 smith_record)
       "DBLP:conf/x/Smith20" "conf/x/Smith20" initial))))) H).
Defined.

(** C4, where the script fails: the fetcher tests whether the label
    contains [DBLP:], and then cuts the first five characters, a length
    that fits a prefix only.  The label [DOI:10.1000/DBLP:182] starts
    with [DOI:], yet it is not sent to the DOI address without that
    prefix: it goes to the address of DBLP records as [0.1000/DBLP:182].
    The label [key-DBLP:conf/x/Smith20] has neither prefix, yet it is not
    sent to the DOI address as it is: it goes to the address of DBLP
    records as [BLP:conf/x/Smith20]. *)
Lemma request_url_not_by_prefix :
  Py.startswith "DBLP:" "key-DBLP:conf/x/Smith20" = false
  ∧ Py.startswith "DOI:" "key-DBLP:conf/x/Smith20" = false
  ∧ gets (trace (download_dblp (answering 200 smith_record)
                   "key-DBLP:conf/x/Smith20" initial).2)
    = ["https://dblp.uni-trier.de/rec/BLP:conf/x/Smith20.bib"]
  ∧ "https://dblp.uni-trier.de/rec/BLP:conf/x/Smith20.bib"
    ≠ "https://dblp.org/doi/" ++ "key-DBLP:conf/x/Smith20" ++ ".bib"
  ∧ Py.startswith "DOI:" "DOI:10.1000/DBLP:182" = true
  ∧ gets (trace (download_dblp (answering 200 smith_record)
                   "DOI:10.1000/DBLP:182" initial).2)
    = ["https://dblp.uni-trier.de/rec/0.1000/DBLP:182.bib"]
  ∧ "https://dblp.uni-trier.de/rec/0.1000/DBLP:182.bib"
    ≠ "https://dblp.org/doi/" ++ "10.1000/DBLP:182" ++ ".bib".
Proof. vm_compute. repeat split; discriminate. Qed.

Lemma download_dblp_rejects_witness :
  requests_get (answering 404 "<html>Not Found</html>")
    (request_url "DOI:10.1000/182")
  = NetResponse (Response 404 "<html>Not Found</html>")
  ∧ ¬ starts_with "@" "<html>Not Found</html>"
  ∧ (download_dblp (answering 404 "<html>Not Found</html>")
       "DOI:10.1000/182" initial).1
    = Return (None, "ERROR key: " ++ request_key "DOI:10.1000/182"
                      ++ ", url: " ++ request_url "DOI:10.1000/182").
Proof.
  assert (H : ¬ starts_with "@" "<html>Not Found</html>")
    by (intros [r Hr]; discriminate Hr).
  split; [reflexivity|]. split; [exact H|].
  exact (download_dblp_rejects (answering 404 "<html>Not Found</html>")
           "DOI:10.1000/182" initial 404 "<html>Not Found</html>"
           eq_refl (or_introl H)).
Defined.

Lemma download_dblp_short_body_witness :
  starts_with "@" "@a" ∧ Py.len "@a" = 2
  ∧ validate_bib "@a" = None
  ∧ (download_dblp (answering 200 "@a") "DBLP:conf/x/Smith20" initial).1
    = Return (None, "ERROR key: " ++ request_key "DBLP:conf/x/Smith20"
                      ++ ", url: " ++ request_url "DBLP:conf/x/Smith20")
  ∧ trace (download_dblp (answering 200 "@a") "DBLP:conf/x/Smith20"
             initial).2
    = (trace initial
       ++ [Get (request_url "DBLP:conf/x/Smith20");
           Print ("ERROR cannot fetch "
                  ++ request_key "DBLP:conf/x/Smith20")])%list.
Proof.
  assert (H1 : starts_with "@" "@a") by (by exists "a").
  assert (H2 : Py.len "@a" = 2) by reflexivity.
  split; [exact H1|]. split; [exact H2|].
  exact (download_dblp_short_body (answering 200 "@a") "DBLP:conf/x/Smith20"
           initial 200 "@a" eq_refl (or_intror (conj H1 (or_intror H2)))).
Defined.

Lemma download_dblp_rewrites_key_witness :
  validate_bib smith_record = Some true
  ∧ REVALIAS (with_alias "DBLP:conf/x/Smith20" "smith20")
      !! "DBLP:conf/x/Smith20" = Some "smith20"
  ∧ (download_dblp (answering 200 smith_record) "DBLP:conf/x/Smith20"
       (with_alias "DBLP:conf/x/Smith20" "smith20")).1
    = Return (Some ("@inproceedings{smith20," ++ nl
                    ++ "  title = {A Title}" ++ nl ++ "}" ++ nl ++ nl),
              "ERROR key: conf/x/Smith20, url: "
              ++ "https://dblp.uni-trier.de/rec/conf/x/Smith20.bib").
Proof.
  split; [reflexivity|]. split; [reflexivity|].
  refine (download_dblp_rewrites_key (answering 200 smith_record)
            "DBLP:conf/x/Smith20" (with_alias "DBLP:conf/x/Smith20" "smith20")
            200 "@inproceedings" "DBLP:conf/x/Smith20"
            (nl ++ "  title = {A Title}" ++ nl ++ "}" ++ nl ++ nl)
            "smith20" _ _ _ _ _ _ _ _ _);
    [reflexivity | reflexivity | reflexivity | reflexivity | discriminate
    | reflexivity | reflexivity | reflexivity | reflexivity].
Defined.

(** Without an alias the new key is the input label: the key of the
    record for [DBLP:conf/x/Smith20] is not [conf/x/Smith20], and the
    record fetched for a DOI does not keep the key that the source gave
    it, which C1 says it does. *)
Lemma download_dblp_key_is_label :
  validate_bib smith_record = Some true
  ∧ REVALIAS initial !! "DBLP:conf/x/Smith20" = None
  ∧ REVALIAS initial !! "DOI:10.1000/182" = None
  ∧ (download_dblp (answering 200 smith_record) "DBLP:conf/x/Smith20"
       initial).1
    = Return (Some ("@inproceedings{DBLP:conf/x/Smith20," ++ nl
                    ++ "  title = {A Title}" ++ nl ++ "}" ++ nl ++ nl),
              "ERROR key: conf/x/Smith20, url: "
              ++ "https://dblp.uni-trier.de/rec/conf/x/Smith20.bib")
  ∧ (download_dblp (answering 200 smith_record) "DOI:10.1000/182"
       initial).1
    = Return (Some ("@inproceedings{DOI:10.1000/182," ++ nl
                    ++ "  title = {A Title}" ++ nl ++ "}" ++ nl ++ nl),
              "ERROR key: 10.1000/182, url: "
              ++ "https://dblp.org/doi/10.1000/182.bib")
  ∧ (download_dblp (answering 200 smith_record) "DBLP:conf/x/Smith20"
       initial).1
    ≠ Return (Some ("@inproceedings{conf/x/Smith20," ++ nl
                    ++ "  title = {A Title}" ++ nl ++ "}" ++ nl ++ nl),
              "ERROR key: conf/x/Smith20, url: "
              ++ "https://dblp.uni-trier.de/rec/conf/x/Smith20.bib")
  ∧ (download_dblp (answering 200 smith_record) "DOI:10.1000/182"
       initial).1
    ≠ Return (Some smith_record,
              "ERROR key: 10.1000/182, url: "
              ++ "https://dblp.org/doi/10.1000/182.bib").
Proof. vm_compute. repeat split; discriminate. Qed.

(** * Further properties of the script *)

(** ** Searching for a character *)

Lemma first_index_absent (c : ascii) (s : string) :
  occurs c s = false → Py.first_index (String c "") s = None.
Proof. intros H. apply contains_false. by rewrite contains_char. Qed.

Lemma find_absent (s sub : string) :
  Py.first_index sub s = None → Py.find s sub = -1.
Proof.
  intros H. unfold Py.find, Py.find_from. simpl.
  destruct (Z.ltb_spec (Py.len s) 0); [done|]. by rewrite H.
Qed.

Lemma find_present (s sub : string) (i : nat) :
  Py.first_index sub s = Some i → Py.find s sub = Z.of_nat i.
Proof.
  intros H. unfold Py.find, Py.find_from. simpl.
  destruct (Z.ltb_spec (Py.len s) 0) as [Hl|_];
    [unfold Py.len in Hl; lia|].
  by rewrite H.
Qed.

Lemma find_nonneg (s sub : string) :
  0 ≤ Py.find s sub ↔ Py.contains sub s = true.
Proof.
  unfold Py.contains. rewrite bool_decide_eq_true.
  destruct (Py.first_index sub s) as [i|] eqn:E.
  - rewrite (find_present _ _ _ E). split; [eauto|lia].
  - rewrite (find_absent _ _ E). split; [lia|]. by intros [? ?].
Qed.

Lemma occurs_first (c : ascii) (s : string) :
  occurs c s = true → ∃ p t, s = p ++ String c t ∧ occurs c p = false.
Proof.
  induction s as [|a s IH]; [done|]. simpl.
  destruct (decide (a = c)) as [->|Hne].
  - intros _. by exists "", s.
  - rewrite bool_decide_eq_false_2 by done. simpl. intros H.
    destruct (IH H) as (p & t & -> & Hp). exists (String a p), t.
    split; [done|]. simpl. by rewrite bool_decide_eq_false_2, Hp.
Qed.

Lemma slice_to_app (p t : string) :
  Py.slice_to (p ++ t) (Z.of_nat (String.length p)) = p.
Proof.
  unfold Py.slice_to, Py.clamp, Py.len. rewrite length_app.
  destruct (Z.ltb_spec (Z.of_nat (String.length p)) 0); [lia|].
  rewrite Z.min_l by lia. rewrite Nat2Z.id. apply keep_app.
Qed.

(** ** Comments of the bibcloud alias file *)

(** X1: [strip_comment] returns a line without [%] as it is, and a line
    with [%] cut before its first [%]. *)
Theorem strip_comment_first_percent (l p t : string) :
  (occurs "%" l = false → strip_comment l = l)
  ∧ (occurs "%" p = false → strip_comment (p ++ String "%" t) = p).
Proof.
  unfold strip_comment. split.
  - intros H. rewrite (find_absent l "%" (first_index_absent _ _ H)).
    reflexivity.
  - intros H.
    rewrite (find_present _ "%" _ (first_index_char "%" p t H)).
    destruct (Z.leb_spec 0 (Z.of_nat (String.length p))); [|lia].
    apply slice_to_app.
Qed.

Lemma strip_comment_first_percent_witness :
  occurs "%" "smith20 DBLP:conf/x/Smith20 " = false
  ∧ strip_comment ("smith20 DBLP:conf/x/Smith20 " ++ String "%" " a note % more")
    = "smith20 DBLP:conf/x/Smith20 ".
Proof.
  assert (H : occurs "%" "smith20 DBLP:conf/x/Smith20 " = false)
    by reflexivity.
  split; [exact H|].
  exact (proj2 (strip_comment_first_percent ""
                  "smith20 DBLP:conf/x/Smith20 " " a note % more") H).
Defined.

(** ** More on the extraction from the [.aux] file *)

Lemma find_citation_no_marker (l : string) :
  Py.contains "\citation{" l = false →
  Py.contains "\abx@aux@cite{" l = false →
  find_citation l = "".
Proof.
  intros H1%contains_false H2%contains_false. unfold find_citation.
  by rewrite (find_absent _ _ H1), (find_absent _ _ H2).
Qed.

Lemma sorted_set_nil : sorted_set [] = [].
Proof. unfold sorted_set. simpl. by rewrite elements_empty. Qed.

(** X2: a file in which no line has one of the two markers has no
    citation key. *)
Theorem citation_keys_no_marker (lines : list string) :
  Forall (λ l, Py.contains "\citation{" l = false
               ∧ Py.contains "\abx@aux@cite{" l = false) lines →
  citation_keys lines = [].
Proof.
  intros Hall. unfold citation_keys.
  replace (filter (λ c, c ≠ "") (find_citation <$> lines)) with (@nil string).
  { apply sorted_set_nil. }
  symmetry. induction Hall as [|l lines [H1 H2] _ IH]; [done|].
  rewrite fmap_cons, (find_citation_no_marker l H1 H2).
  rewrite filter_cons_False by (intros H; by apply H). exact IH.
Qed.

Lemma citation_keys_no_marker_witness :
  Forall (λ l, Py.contains "\citation{" l = false
               ∧ Py.contains "\abx@aux@cite{" l = false)
    ["\relax"; "\bibstyle{plain}"; "\bibdata{refs}"; "\cite{a}"]
  ∧ citation_keys ["\relax"; "\bibstyle{plain}"; "\bibdata{refs}"; "\cite{a}"]
    = [].
Proof.
  assert (H : Forall (λ l, Py.contains "\citation{" l = false
                           ∧ Py.contains "\abx@aux@cite{" l = false)
                ["\relax"; "\bibstyle{plain}"; "\bibdata{refs}"; "\cite{a}"])
    by (repeat constructor).
  split; [exact H | exact (citation_keys_no_marker _ H)].
Defined.

(** X3: on a line with no opening brace before the marker, the text
    extracted is the text between the brace of the marker and the next
    closing brace, for the marker [\citation{] and, on a line without
    [\citation{], for the marker [\abx@aux@cite{]. *)
Theorem find_citation_group (pre ks rest : string) :
  occurs "{" pre = false →
  occurs "}" ks = false →
  find_citation (pre ++ "\citation{" ++ ks ++ "}" ++ rest) = ks
  ∧ (Py.contains "\citation{" (pre ++ "\abx@aux@cite{" ++ ks ++ "}" ++ rest)
     = false →
     find_citation (pre ++ "\abx@aux@cite{" ++ ks ++ "}" ++ rest) = ks).
Proof.
  intros Hpre Hks. split; [by apply find_citation_marker_first|].
  intros Hno%contains_false. unfold find_citation.
  rewrite (find_absent _ _ Hno).
  change (0 <=? -1) with false. cbv iota.
  destruct (Z.leb_spec 0
              (Py.find (pre ++ "\abx@aux@cite{" ++ ks ++ "}" ++ rest)
                 "\abx@aux@cite{")) as [_|H].
  - replace (pre ++ "\abx@aux@cite{" ++ ks ++ "}" ++ rest)
      with ((pre ++ "\abx@aux@cite") ++ String "{" (ks ++ String "}" rest))
      by (by rewrite str_app_assoc).
    apply slice_first_group; [|done].
    rewrite occurs_app, Hpre. reflexivity.
  - pose proof (find_found "\abx@aux@cite{" pre (ks ++ "}" ++ rest)). lia.
Qed.

Lemma find_citation_group_witness :
  occurs "{" "" = false
  ∧ occurs "}" "knuth84,lamport94" = false
  ∧ Py.contains "\citation{"
      ("" ++ "\abx@aux@cite{" ++ "knuth84,lamport94" ++ "}" ++ "{x}") = false
  ∧ find_citation ("" ++ "\citation{" ++ "knuth84,lamport94" ++ "}" ++ "{x}")
    = "knuth84,lamport94"
  ∧ find_citation
      ("" ++ "\abx@aux@cite{" ++ "knuth84,lamport94" ++ "}" ++ "{x}")
    = "knuth84,lamport94".
Proof.
  assert (H1 : occurs "{" "" = false) by reflexivity.
  assert (H2 : occurs "}" "knuth84,lamport94" = false) by reflexivity.
  assert (H3 : Py.contains "\citation{"
                 ("" ++ "\abx@aux@cite{" ++ "knuth84,lamport94" ++ "}"
                  ++ "{x}") = false) by reflexivity.
  pose proof (find_citation_group "" "knuth84,lamport94" "{x}" H1 H2)
    as [Ha Hb].
  split; [exact H1|]. split; [exact H2|]. split; [exact H3|].
  split; [exact Ha | exact (Hb H3)].
Defined.

(** X4: when no closing brace follows the first opening brace of a line
    with the marker, the text extracted is the rest of the line without
    its last character: the failed search gives [-1], which the slice
    takes as a bound from the end. *)
Theorem find_citation_unclosed (pre b : string) (c : ascii) :
  occurs "{" pre = false →
  occurs "}" (b ++ String c "") = false →
  find_citation (pre ++ "\citation{" ++ b ++ String c "") = b.
Proof.
  intros Hpre Hb. unfold find_citation.
  destruct (Z.leb_spec 0
              (Py.find (pre ++ "\citation{" ++ b ++ String c "")
                 "\citation{")) as [_|H].
  2:{ pose proof (find_found "\citation{" pre (b ++ String c "")). lia. }
  replace (pre ++ "\citation{" ++ b ++ String c "")
    with ((pre ++ "\citation") ++ String "{" (b ++ String c ""))
    by (by rewrite str_app_assoc).
  set (p := pre ++ "\citation").
  assert (Hp : occurs "{" p = false)
    by (unfold p; rewrite occurs_app, Hpre; reflexivity).
  set (l := p ++ String "{" (b ++ String c "")).
  assert (Hlen : Py.len l = Z.of_nat (String.length p) + 1
                            + Z.of_nat (String.length b) + 1).
  { unfold l, Py.len. rewrite length_app. simpl. rewrite length_app. simpl.
    lia. }
  rewrite (find_present l "{" _ (first_index_char "{" p _ Hp)).
  assert (Hz : Py.find_from l "}" (Z.of_nat (String.length p)) = -1).
  { unfold Py.find_from.
    destruct (Z.ltb_spec (Z.of_nat (String.length p)) 0) as [?|_]; [lia|].
    destruct (Z.ltb_spec (Py.len l) (Z.of_nat (String.length p))) as [?|_];
      [lia|].
    rewrite Nat2Z.id. unfold l. rewrite skip_app.
    rewrite first_index_absent; [done|]. simpl. exact Hb. }
  rewrite Hz. unfold Py.slice, Py.clamp. rewrite Hlen.
  destruct (Z.ltb_spec (Z.of_nat (String.length p) + 1) 0) as [?|_]; [lia|].
  change (-1 <? 0) with true. cbv iota.
  rewrite Z.min_l, Z.max_l by lia.
  replace (Z.to_nat (Z.of_nat (String.length p) + 1))
    with (S (String.length p)) by lia.
  replace (Z.to_nat _) with (String.length b) by lia.
  unfold l. rewrite skip_S_app. apply keep_app.
Qed.

Lemma find_citation_unclosed_witness :
  occurs "{" "" = false
  ∧ occurs "}" ("knuth8" ++ String "4" "") = false
  ∧ find_citation ("" ++ "\citation{" ++ "knuth8" ++ String "4" "")
    = "knuth8".
Proof.
  assert (H1 : occurs "{" "" = false) by reflexivity.
  assert (H2 : occurs "}" ("knuth8" ++ String "4" "") = false)
    by reflexivity.
  split; [exact H1|]. split; [exact H2|].
  exact (find_citation_unclosed "" "knuth8" "4" H1 H2).
Defined.

Lemma elem_of_citation_keys (lines : list string) (k : string) :
  k ∈ citation_keys lines ↔
  ∃ l, l ∈ lines ∧ find_citation l ≠ ""
       ∧ k ∈ Py.split "," (Py.strip_chars " " (find_citation l)).
Proof.
  unfold citation_keys.
  rewrite elem_of_sorted_set, list_elem_of_join. split.
  - intros (ps & Hk & Hps).
    apply list_elem_of_fmap in Hps as (c & -> & Hc).
    apply list_elem_of_fmap in Hc as (c' & -> & Hc').
    apply list_elem_of_filter in Hc' as [Hne Hc'].
    apply list_elem_of_fmap in Hc' as (l & -> & Hl).
    by exists l.
  - intros (l & Hl & Hne & Hk).
    exists (Py.split "," (Py.strip_chars " " (find_citation l))).
    split; [done|].
    apply list_elem_of_fmap. eexists. split; [done|].
    apply list_elem_of_fmap. eexists. split; [done|].
    apply list_elem_of_filter. split; [done|].
    apply list_elem_of_fmap. by exists l.
Qed.

(** X5: the citation keys depend on the set of the lines only: two files
    with the same lines, in any order and any number of times, have the
    same list of keys. *)
Theorem citation_keys_same_lines (lines1 lines2 : list string) :
  (∀ l, l ∈ lines1 ↔ l ∈ lines2) →
  citation_keys lines1 = citation_keys lines2.
Proof.
  intros Hsame.
  apply (StronglySorted_unique String.le).
  - apply sorted_set_sorted.
  - apply sorted_set_sorted.
  - apply NoDup_Permutation; [apply sorted_set_NoDup..|].
    intros k. rewrite !elem_of_citation_keys.
    split; intros (l & Hl & H); exists l; (split; [by apply Hsame|done]).
Qed.

Lemma citation_keys_same_lines_witness :
  citation_keys ["\citation{b,a}"; "\citation{a,c}"; "\citation{b,a}"]
  = citation_keys ["\citation{a,c}"; "\citation{b,a}"].
Proof.
  apply citation_keys_same_lines. intros l.
  rewrite !elem_of_cons, !elem_of_nil. tauto.
Defined.

(** ** Splitting at a character *)

Lemma split_cons (c : ascii) (s : string) :
  ∃ h tl, Py.split c s = h :: tl.
Proof.
  induction s as [|a s (h & tl & IH)]; simpl; [eauto|].
  destruct (decide (a = c)); [eauto|]. rewrite IH. eauto.
Qed.

Lemma split_absent (c : ascii) (s : string) :
  occurs c s = false → Py.split c s = [s].
Proof.
  induction s as [|a s IH]; [done|]. simpl.
  intros [Ha%bool_decide_eq_false Hs]%orb_false_iff.
  rewrite decide_False by done. by rewrite (IH Hs).
Qed.

Lemma split_app_head (c : ascii) (s t h : string) (tl : list string) :
  occurs c s = false → Py.split c t = h :: tl →
  Py.split c (s ++ t) = (s ++ h) :: tl.
Proof.
  intros Hs Ht. induction s as [|a s IH]; [done|].
  change (String a s ++ t) with (String a (s ++ t)).
  simpl in *. apply orb_false_iff in Hs as [Ha%bool_decide_eq_false Hs].
  rewrite decide_False by done. by rewrite (IH Hs).
Qed.

Lemma split_first (c : ascii) (p q : string) :
  occurs c p = false → Py.split c (p ++ String c q) = p :: Py.split c q.
Proof.
  intros Hp.
  assert (Hq : Py.split c (String c q) = "" :: Py.split c q)
    by (simpl; by rewrite decide_True).
  rewrite (split_app_head c p _ _ _ Hp Hq).
  f_equal. induction p as [|a p IH]; [done|].
  simpl in Hp. apply orb_false_iff in Hp as [_ Hp].
  change (String a (p ++ "") = String a p). by rewrite (IH Hp).
Qed.

(** ** More on [load_references] *)

Section LoadReferencesMore.

Variable w : world.

(** X6: when neither [<name>] nor [<name>.aux] exists, [load_references]
    ends the run with status 1 after the one message that names the
    file; it leaves the tables and the style as they were. *)
Theorem load_references_missing (name : string) (st : state) :
  files w name = None →
  files w (name ++ ".aux") = None →
  (load_references w name st).1 = SysExit 1
  ∧ trace (load_references w name st).2
    = (trace st ++ [Print ("FATAL -- File " ++ name ++ " does not exist")])%list
  ∧ ALIAS (load_references w name st).2 = ALIAS st
  ∧ REVALIAS (load_references w name st).2 = REVALIAS st
  ∧ gBibStyle (load_references w name st).2 = gBibStyle st.
Proof.
  intros H1%isfile_false H2%isfile_false.
  unfold load_references. rewrite H1, H2. done.
Qed.

(** X7: when the file has exactly one line with [\bibstyle], and the
    first opening brace of that line is followed by a name and a closing
    brace, the name becomes the style of the run, and the citation keys
    of the file are returned. *)
Theorem load_references_bibstyle (name : string) (raw : list string)
    (st : state) (p style rest : string) :
  files w name = Some raw →
  filter (λ x, 0 ≤ Py.find x "\bibstyle") (Py.strip <$> raw)
  = [p ++ "{" ++ style ++ "}" ++ rest] →
  occurs "{" p = false →
  occurs "{" style = false →
  occurs "}" style = false →
  (load_references w name st).1 = Return (citation_keys (Py.strip <$> raw))
  ∧ gBibStyle (load_references w name st).2 = style.
Proof.
  intros Hfile Hone Hp Hs1 Hs2.
  assert (Hname : isfile w name = true) by (apply isfile_true; eauto).
  unfold load_references. rewrite Hname. cbn [negb andb].
  unfold open. rewrite Hfile. run_steps. rewrite Hone.
  rewrite decide_True by done. cbn [lookup_total list_lookup_total].
  change (p ++ "{" ++ style ++ "}" ++ rest)
    with (p ++ String "{" (style ++ String "}" rest)).
  rewrite (split_first "{" p _ Hp).
  destruct (split_cons "{" (String "}" rest)) as (h & tl & Hrest).
  rewrite (split_app_head "{" style _ _ _ Hs1 Hrest).
  assert (Hh : ∃ h', h = String "}" h').
  { simpl in Hrest.
    destruct (Py.split "{" rest); injection Hrest as <- _; eauto. }
  destruct Hh as [h' ->].
  cbn [lookup list_lookup].
  rewrite (split_first "}" style h' Hs2).
  cbn [lookup_total list_lookup_total]. done.
Qed.

(** X8: when the one line with [\bibstyle] has no opening brace, the
    index [1] of its split is out of range: [load_references] raises
    [IndexError], which nothing catches. *)
Theorem load_references_bibstyle_no_brace (name : string)
    (raw : list string) (st : state) (x : string) :
  files w name = Some raw →
  filter (λ x, 0 ≤ Py.find x "\bibstyle") (Py.strip <$> raw) = [x] →
  occurs "{" x = false →
  (load_references w name st).1 = Raised IndexError.
Proof.
  intros Hfile Hone Hx.
  assert (Hname : isfile w name = true) by (apply isfile_true; eauto).
  unfold load_references. rewrite Hname. cbn [negb andb].
  unfold open. rewrite Hfile. run_steps. rewrite Hone.
  rewrite decide_True by done. cbn [lookup_total list_lookup_total].
  by rewrite (split_absent "{" x Hx).
Qed.

(** X9: when the file exists, and it is not the case that its one line
    with [\bibstyle] has no opening brace, [load_references] returns the
    citation keys of its stripped lines and leaves the alias tables as
    they were. *)
Theorem load_references_returns (name : string) (raw : list string)
    (st : state) :
  files w name = Some raw →
  (∀ x, filter (λ x, 0 ≤ Py.find x "\bibstyle") (Py.strip <$> raw) = [x] →
        occurs "{" x = true) →
  (load_references w name st).1 = Return (citation_keys (Py.strip <$> raw))
  ∧ ALIAS (load_references w name st).2 = ALIAS st
  ∧ REVALIAS (load_references w name st).2 = REVALIAS st.
Proof.
  intros Hfile Hstyle.
  assert (Hname : isfile w name = true) by (apply isfile_true; eauto).
  unfold load_references. rewrite Hname. cbn [negb andb].
  unfold open. rewrite Hfile. run_steps.
  destruct (filter _ (Py.strip <$> raw)) as [|x [|x' bs]] eqn:Hbs;
    [done | | done].
  rewrite decide_True by done. cbn [lookup_total list_lookup_total].
  destruct (occurs_first "{" x (Hstyle x eq_refl)) as (p & t & -> & Hp).
  rewrite (split_first "{" p t Hp).
  destruct (split_cons "{" t) as (h & tl & ->). done.
Qed.

End LoadReferencesMore.

Lemma load_references_missing_witness :
  files paper_world "thesis" = None
  ∧ files paper_world ("thesis" ++ ".aux") = None
  ∧ (load_references paper_world "thesis" initial).1 = SysExit 1
  ∧ trace (load_references paper_world "thesis" initial).2
    = (trace initial
       ++ [Print ("FATAL -- File " ++ "thesis" ++ " does not exist")])%list.
Proof.
  pose proof (load_references_missing paper_world "thesis" initial
                eq_refl eq_refl) as (H1 & H2 & _).
  split; [reflexivity|]. split; [reflexivity|].
  split; [exact H1 | exact H2].
Defined.

Lemma load_references_bibstyle_witness :
  files styled_world "main.aux"
  = Some ["\relax " ++ nl; "\bibstyle{plain}" ++ nl;
          "\citation{knuth84}" ++ nl]
  ∧ (load_references styled_world "main.aux" initial).1 = Return ["knuth84"]
  ∧ gBibStyle (load_references styled_world "main.aux" initial).2 = "plain".
Proof.
  pose proof (load_references_bibstyle styled_world "main.aux"
                ["\relax " ++ nl; "\bibstyle{plain}" ++ nl;
                 "\citation{knuth84}" ++ nl]
                initial "\bibstyle" "plain" ""
                eq_refl eq_refl eq_refl eq_refl eq_refl) as [H1 H2].
  split; [reflexivity|]. split; [exact H1 | exact H2].
Defined.

Lemma load_references_bibstyle_no_brace_witness :
  files styled_world "broken.aux"
  = Some ["\bibstyle plain" ++ nl; "\citation{knuth84}" ++ nl]
  ∧ occurs "{" "\bibstyle plain" = false
  ∧ (load_references styled_world "broken.aux" initial).1
    = Raised IndexError.
Proof.
  split; [reflexivity|]. split; [reflexivity|].
  exact (load_references_bibstyle_no_brace styled_world "broken.aux"
           ["\bibstyle plain" ++ nl; "\citation{knuth84}" ++ nl]
           initial "\bibstyle plain" eq_refl eq_refl eq_refl).
Defined.

Lemma load_references_returns_witness :
  files paper_world "paper.aux" = Some ["\citation{b,a}"; "\citation{a,c}"]
  ∧ (load_references paper_world "paper.aux" initial).1
    = Return (citation_keys
                (Py.strip <$> ["\citation{b,a}"; "\citation{a,c}"]))
  ∧ ALIAS (load_references paper_world "paper.aux" initial).2 = ALIAS initial
  ∧ REVALIAS (load_references paper_world "paper.aux" initial).2
    = REVALIAS initial.
Proof.
  split; [reflexivity|].
  apply (load_references_returns paper_world "paper.aux"
           ["\citation{b,a}"; "\citation{a,c}"] initial eq_refl).
  intros x Hx. vm_compute in Hx. discriminate Hx.
Defined.

(** ** More on the citations of the run *)

(** X10: with no explicit key, no alias file and no bibcloud file the
    run ends with status 1 after one message, whether an aux path is
    given or not: the aux file is not read. *)
Theorem main_citations_nothing_to_do (w : world) (args : arguments)
    (st : state) :
  keys args = [] →
  given (aliasfile args) = false →
  given (bibcloud args) = false →
  (main_citations w args st).1 = SysExit 1
  ∧ trace (main_citations w args st).2
    = (trace st
       ++ [Print "ERROR: a list of keys or an alias file must be provided."])%list.
Proof.
  intros Hk Ha Hb. unfold main_citations. rewrite Hk, Ha, Hb. done.
Qed.

Lemma main_citations_nothing_to_do_witness :
  keys only_aux = []
  ∧ given (aux only_aux) = true
  ∧ is_Some (files paper_world "paper.aux")
  ∧ (main_citations paper_world only_aux initial).1 = SysExit 1
  ∧ trace (main_citations paper_world only_aux initial).2
    = (trace initial
       ++ [Print "ERROR: a list of keys or an alias file must be provided."])%list.
Proof.
  pose proof (main_citations_nothing_to_do paper_world only_aux initial
                eq_refl eq_refl eq_refl) as [H1 H2].
  split; [reflexivity|]. split; [reflexivity|].
  split; [vm_compute; eauto|]. split; [exact H1 | exact H2].
Defined.

(** X11: the aux file is read before the explicit keys replace its
    citations: when an aux path is given and neither the path nor the
    path with [.aux] exists, the run ends with status 1 even with
    explicit keys. *)
Theorem main_citations_aux_missing (w : world) (args : arguments)
    (st : state) (path : string) :
  keys args ≠ [] →
  aux args = Some path → path ≠ "" →
  files w path = None →
  files w (path ++ ".aux") = None →
  (main_citations w args st).1 = SysExit 1.
Proof.
  intros Hk Haux Hne H1%isfile_false H2%isfile_false.
  unfold main_citations. rewrite Haux.
  destruct (keys args) as [|k ks]; [done|]. simpl.
  rewrite bool_decide_eq_true_2 by done.
  unfold load_references. rewrite H1, H2. reflexivity.
Qed.

Lemma main_citations_aux_missing_witness :
  keys keys_and_missing_aux ≠ []
  ∧ aux keys_and_missing_aux = Some "thesis"
  ∧ files paper_world "thesis" = None
  ∧ files paper_world ("thesis" ++ ".aux") = None
  ∧ (main_citations paper_world keys_and_missing_aux initial).1 = SysExit 1.
Proof.
  assert (H1 : keys keys_and_missing_aux ≠ []) by discriminate.
  assert (H2 : "thesis" ≠ "") by discriminate.
  split; [exact H1|]. split; [reflexivity|].
  split; [reflexivity|]. split; [reflexivity|].
  exact (main_citations_aux_missing paper_world keys_and_missing_aux initial
           "thesis" H1 eq_refl H2 eq_refl eq_refl).
Defined.

(** ** More on the bibcloud alias file *)

Lemma grown_refl canon (m : gmap string string) : grown canon m m.
Proof. intros i x H. by left. Qed.

Lemma grown_trans canon (m0 m1 m2 : gmap string string) :
  grown canon m0 m1 → grown canon m1 m2 → grown canon m0 m2.
Proof.
  intros H01 H12 i x H2.
  destruct (H12 i x H2) as [H1|?]; [by apply H01 | by right].
Qed.

Lemma grown_insert canon (m : gmap string string) (i x : string) :
  marked (canon i x) → grown canon m (<[i := x]> m).
Proof.
  intros Hm j y Hj. apply lookup_insert_Some in Hj as [[<- <-]|[_ Hj]].
  - by right.
  - by left.
Qed.

(** One line of the file: the run goes on, and what the line adds to
    the tables has a marked canonical key. *)
Lemma bibcloud_line_grows (l : string) (st : state) :
  (bibcloud_line l st).1 = Return tt
  ∧ grown (λ _ k, k) (ALIAS st) (ALIAS (bibcloud_line l st).2)
  ∧ grown (λ k _, k) (REVALIAS st) (REVALIAS (bibcloud_line l st).2)
  ∧ gBibStyle (bibcloud_line l st).2 = gBibStyle st.
Proof.
  unfold bibcloud_line.
  destruct (bool_decide (2 ≤ length (Py.split_ws l))%nat && _) eqn:E.
  - apply andb_true_iff in E as [_ E].
    assert (Hm : marked (Py.split_ws l !!! 1%nat)).
    { apply orb_true_iff in E as [E|E]; apply bool_decide_eq_true in E;
        apply find_nonneg in E; [by left | by right]. }
    run_steps. simpl.
    split; [done|]. split; [|split; [|done]]; by apply grown_insert.
  - destruct (bool_decide (0 < length (Py.split_ws l))%nat); simpl;
      (split; [done|]; split; [apply grown_refl|];
       split; [apply grown_refl | done]).
Qed.

Lemma bibcloud_lines_grow (lines : list string) (st : state) :
  (for_each lines bibcloud_line st).1 = Return tt
  ∧ grown (λ _ k, k) (ALIAS st) (ALIAS (for_each lines bibcloud_line st).2)
  ∧ grown (λ k _, k) (REVALIAS st)
      (REVALIAS (for_each lines bibcloud_line st).2)
  ∧ gBibStyle (for_each lines bibcloud_line st).2 = gBibStyle st.
Proof.
  revert st. induction lines as [|l lines IH]; intros st.
  - simpl. split; [done|]. split; [apply grown_refl|].
    split; [apply grown_refl | done].
  - destruct (bibcloud_line l st) as [o s1] eqn:Hl.
    pose proof (bibcloud_line_grows l st) as (Ho & HA & HR & HG).
    rewrite Hl in Ho, HA, HR, HG. simpl in Ho, HA, HR, HG. subst o.
    change (for_each (l :: lines) bibcloud_line)
      with (bibcloud_line l ;; for_each lines bibcloud_line).
    rewrite (bind_Return (bibcloud_line l)
               (λ _, for_each lines bibcloud_line) st tt s1 Hl).
    destruct (IH s1) as (Ho' & HA' & HR' & HG').
    split; [done|]. split; [by eapply grown_trans|].
    split; [by eapply grown_trans | congruence].
Qed.

(** X12: when the bibcloud alias file exists, reading it does not stop
    the run, whatever its lines are; every entry of the two tables
    afterwards was there before or has a canonical key that contains
    [DBLP:] or [DOI:]; the style is left as it was. *)
Theorem main_bibcloud_grows (w : world) (args : arguments) (st : state)
    (path : string) (raw : list string) :
  bibcloud args = Some path → path ≠ "" →
  files w path = Some raw →
  (main_bibcloud w args st).1 = Return tt
  ∧ grown (λ _ k, k) (ALIAS st) (ALIAS (main_bibcloud w args st).2)
  ∧ grown (λ k _, k) (REVALIAS st) (REVALIAS (main_bibcloud w args st).2)
  ∧ gBibStyle (main_bibcloud w args st).2 = gBibStyle st.
Proof.
  intros Hpath Hne Hfile. unfold main_bibcloud. rewrite Hpath. simpl.
  rewrite bool_decide_eq_true_2 by done.
  unfold open. rewrite Hfile.
  rewrite (bind_Return (mret raw) _ st raw st eq_refl).
  apply bibcloud_lines_grow.
Qed.

Lemma main_bibcloud_grows_witness :
  bibcloud with_bibcloud = Some "alias.txt"
  ∧ is_Some (files bibcloud_world "alias.txt")
  ∧ (main_bibcloud bibcloud_world with_bibcloud initial).1 = Return tt
  ∧ grown (λ _ k, k) (ALIAS initial)
      (ALIAS (main_bibcloud bibcloud_world with_bibcloud initial).2)
  ∧ ALIAS (main_bibcloud bibcloud_world with_bibcloud initial).2 !! "smith20"
    = Some "DBLP:conf/x/Smith20"
  ∧ ALIAS (main_bibcloud bibcloud_world with_bibcloud initial).2 !! "bare"
    = None.
Proof.
  assert (Hne : "alias.txt" ≠ "") by discriminate.
  pose proof (main_bibcloud_grows bibcloud_world with_bibcloud initial
                "alias.txt" _ eq_refl Hne eq_refl) as (H1 & H2 & _).
  split; [reflexivity|]. split; [vm_compute; eauto|].
  split; [exact H1|]. split; [exact H2|].
  split; vm_compute; reflexivity.
Defined.

(** *** A line with an alias, a key and a comment *)

Lemma str_app_nil_r (s : string) : s ++ "" = s.
Proof.
  induction s as [|a s IH]; [done|].
  change (String a (s ++ "") = String a s). by rewrite IH.
Qed.

Lemma rev_app_rev_app (t cur acc : string) :
  String.rev_app (String.rev_app t cur) acc = String.rev_app cur (t ++ acc).
Proof.
  revert cur. induction t as [|a t IH]; intros cur; [done|].
  simpl. by rewrite IH.
Qed.

Lemma length_rev_app (t cur : string) :
  String.length (String.rev_app t cur)
  = (String.length t + String.length cur)%nat.
Proof.
  revert cur. induction t as [|a t IH]; intros cur; [done|].
  simpl. rewrite IH. simpl. lia.
Qed.

Lemma rev_app_nonempty (t cur : string) :
  t ≠ "" → String.rev_app t cur ≠ "".
Proof.
  intros Ht H. apply (f_equal String.length) in H.
  rewrite length_rev_app in H. destruct t; [done|]. simpl in H. lia.
Qed.

Lemma split_ws_go_token (t cur rest : string) :
  has_space t = false →
  Py.split_ws_go cur (t ++ rest) = Py.split_ws_go (String.rev_app t cur) rest.
Proof.
  revert cur. induction t as [|a t IH]; intros cur Ht; [done|].
  change (String a t ++ rest) with (String a (t ++ rest)).
  simpl in *. apply orb_false_iff in Ht as [-> Ht]. by rewrite IH.
Qed.

(** A token followed by white space is the first piece of the split. *)
Lemma split_ws_token (t : string) (c : ascii) (rest : string) :
  has_space t = false → t ≠ "" → Py.isspace c = true →
  Py.split_ws_go "" (t ++ String c rest) = t :: Py.split_ws_go "" rest.
Proof.
  intros Ht Hne Hc. rewrite (split_ws_go_token t "" _ Ht). simpl.
  rewrite Hc. rewrite decide_False by (by apply rev_app_nonempty).
  unfold String.rev. rewrite rev_app_rev_app. simpl.
  by rewrite str_app_nil_r.
Qed.

Lemma strip_comment_cut (p t : string) :
  occurs "%" p = false → strip_comment (p ++ String "%" t) = p.
Proof.
  intros H. unfold strip_comment.
  rewrite (find_present _ "%" _ (first_index_char "%" p t H)).
  destruct (Z.leb_spec 0 (Z.of_nat (String.length p))); [|lia].
  apply slice_to_app.
Qed.

(** X13: a line of the bibcloud file with an alias, a space, a key that
    contains [DBLP:] or [DOI:], and a comment enters the alias under the
    key and the key under the alias, and nothing else: the comment is
    dropped, no message is printed, and the key without its prefix is not
    entered in the reverse table. *)
Theorem bibcloud_line_entry (a k c : string) (st : state) :
  a ≠ "" → k ≠ "" →
  has_space a = false → has_space k = false →
  occurs "%" a = false → occurs "%" k = false →
  marked k →
  (bibcloud_line (strip_comment (a ++ " " ++ k ++ " %" ++ c)) st).1
  = Return tt
  ∧ ALIAS (bibcloud_line (strip_comment (a ++ " " ++ k ++ " %" ++ c)) st).2
    = <[a := k]> (ALIAS st)
  ∧ REVALIAS (bibcloud_line (strip_comment (a ++ " " ++ k ++ " %" ++ c)) st).2
    = <[k := a]> (REVALIAS st)
  ∧ trace (bibcloud_line (strip_comment (a ++ " " ++ k ++ " %" ++ c)) st).2
    = trace st.
Proof.
  intros Ha Hk Hsa Hsk Hpa Hpk Hm.
  assert (Hcut : strip_comment (a ++ " " ++ k ++ " %" ++ c)
                 = a ++ " " ++ k ++ " ").
  { replace (a ++ " " ++ k ++ " %" ++ c)
      with ((a ++ " " ++ k ++ " ") ++ String "%" c)
      by (by rewrite !str_app_assoc).
    apply strip_comment_cut. rewrite !occurs_app, Hpa, Hpk. reflexivity. }
  rewrite Hcut.
  assert (Htok : Py.split_ws (a ++ " " ++ k ++ " ") = [a; k]).
  { unfold Py.split_ws.
    change (a ++ " " ++ k ++ " ") with (a ++ String " " (k ++ String " " "")).
    rewrite (split_ws_token a " " _ Hsa Ha eq_refl).
    by rewrite (split_ws_token k " " _ Hsk Hk eq_refl). }
  unfold bibcloud_line. rewrite Htok.
  cbn [length lookup_total list_lookup_total].
  rewrite (bool_decide_eq_true_2 (2 ≤ 2)%nat) by lia.
  assert (Hc : bool_decide (0 ≤ Py.find k "DBLP:")
               || bool_decide (0 ≤ Py.find k "DOI:") = true).
  { apply orb_true_iff.
    destruct Hm as [H|H]; [left|right];
      apply bool_decide_eq_true, find_nonneg, H. }
  rewrite Hc. done.
Qed.

Lemma bibcloud_line_entry_witness :
  marked "DBLP:conf/x/Smith20"
  ∧ ALIAS (bibcloud_line
             (strip_comment ("smith20" ++ " " ++ "DBLP:conf/x/Smith20"
                             ++ " %" ++ " the main one")) initial).2
    = <["smith20" := "DBLP:conf/x/Smith20"]> (ALIAS initial)
  ∧ REVALIAS (bibcloud_line
                (strip_comment ("smith20" ++ " " ++ "DBLP:conf/x/Smith20"
                                ++ " %" ++ " the main one")) initial).2
    = <["DBLP:conf/x/Smith20" := "smith20"]> (REVALIAS initial).
Proof.
  assert (Hm : marked "DBLP:conf/x/Smith20") by (by left).
  pose proof (bibcloud_line_entry "smith20" "DBLP:conf/x/Smith20"
                " the main one" initial
                ltac:(discriminate) ltac:(discriminate)
                eq_refl eq_refl eq_refl eq_refl Hm) as (_ & H2 & H3 & _).
  split; [exact Hm|]. split; [exact H2 | exact H3].
Defined.

(** ** More on the structural check *)

(** X14: [validate_bib] returns [True] exactly on the texts that start
    with [@] and have [}] as third character from the end, and it raises
    [IndexError] exactly on the empty text and on the texts of one or two
    characters that start with [@]; on every other text it returns
    [False]. *)
Theorem validate_bib_cases (tmp : string) :
  (validate_bib tmp = Some true ↔
   starts_with "@" tmp ∧ third_from_last "}" tmp)
  ∧ (validate_bib tmp = None ↔
     tmp = "" ∨ (starts_with "@" tmp ∧ (String.length tmp < 3)%nat)).
Proof. split; [apply validate_bib_true | apply validate_bib_raises]. Qed.

(** ** More on the record fetcher *)

Section FetchMore.

Variable w : world.

Lemma occurs_first_line (c : ascii) (s : string) :
  occurs c s = false → occurs c (first_line s) = false.
Proof.
  induction s as [|a s IH]; [done|]. simpl.
  intros [Ha Hs]%orb_false_iff.
  destruct (decide (a = Py.newline)); [done|]. simpl.
  by rewrite Ha, (IH Hs).
Qed.

Lemma sub_key_no_comma (repl s : string) :
  occurs "," s = false → Re.sub_key repl s = s.
Proof.
  induction s as [|a s IH]; [done|]. simpl.
  intros [Ha Hs]%orb_false_iff.
  assert (Hnone : Re.dot_plus_comma s = None).
  { destruct s as [|b s']; [done|]. simpl.
    destruct (decide (b = Py.newline)); [done|].
    apply dots_comma_None, occurs_first_line.
    simpl in Hs. by apply orb_false_iff in Hs as [_ ?]. }
  rewrite Hnone, (IH Hs). by destruct (decide (a = "{"%char)).
Qed.

Lemma sub_key_no_brace (repl s : string) :
  occurs "{" s = false → Re.sub_key repl s = s.
Proof.
  induction s as [|a s IH]; [done|]. simpl.
  intros [Ha%bool_decide_eq_false Hs]%orb_false_iff.
  rewrite decide_False by done. by rewrite (IH Hs).
Qed.

(** The text that passes the check is not emptied by the replacement of
    its key. *)
Lemma sub_key_valid_nonempty (repl body : string) :
  validate_bib body = Some true → Re.sub_key repl body ≠ "".
Proof.
  intros [[r ->] _]%validate_bib_true. simpl. discriminate.
Qed.

(** The state after a call: the trace apart, it is the state before. *)
Lemma download_dblp_tables (label : string) (st : state) :
  ALIAS (download_dblp w label st).2 = ALIAS st
  ∧ REVALIAS (download_dblp w label st).2 = REVALIAS st
  ∧ gBibStyle (download_dblp w label st).2 = gBibStyle st.
Proof.
  unfold download_dblp, rewrite_key. run_steps; simpl.
  destruct (requests_get w (request_url label)) as [resp| |]; simpl;
    try done.
  destruct (validate_bib (text resp)) as [[|]|]; simpl; try done.
  destruct (decide (text resp = "")); simpl; try done.
  by destruct (Re.literal_template _).
Qed.

(** X15: the fetcher reads the tables and never writes them: after a
    call, whatever the label and the answer of the server, the two alias
    tables and the style are what they were. *)
Theorem download_dblp_read_only (label : string) (st : state) :
  ALIAS (download_dblp w label st).2 = ALIAS st
  ∧ REVALIAS (download_dblp w label st).2 = REVALIAS st
  ∧ gBibStyle (download_dblp w label st).2 = gBibStyle st.
Proof. apply download_dblp_tables. Qed.

Lemma download_dblp_NetError (label : string) (st : state) :
  requests_get w (request_url label) = NetError →
  (download_dblp w label st).1 = Return (None, "")
  ∧ trace (download_dblp w label st).2
    = (trace st ++ [Get (request_url label);
                    Print ("ERROR cannot fetch " ++ request_key label)])%list.
Proof.
  intros H. unfold download_dblp, rewrite_key. run_steps; simpl.
  rewrite H. simpl. by rewrite <- app_assoc.
Qed.

Lemma download_dblp_NetInterrupt (label : string) (st : state) :
  requests_get w (request_url label) = NetInterrupt →
  (download_dblp w label st).1 = SysExit 0
  ∧ trace (download_dblp w label st).2
    = (trace st ++ [Get (request_url label)])%list.
Proof.
  intros H. unfold download_dblp. run_steps; simpl. by rewrite H.
Qed.

(** X16: when the request fails with an exception, the fetcher prints
    the key and returns no record with the empty error text (the text
    with the key and the address is set only after the request); when
    the request is interrupted from the keyboard, the fetcher ends the
    run with status 0. *)
Theorem download_dblp_network_failure (label : string) (st : state) :
  (requests_get w (request_url label) = NetError →
   (download_dblp w label st).1 = Return (None, "")
   ∧ trace (download_dblp w label st).2
     = (trace st ++ [Get (request_url label);
                     Print ("ERROR cannot fetch " ++ request_key label)])%list)
  ∧ (requests_get w (request_url label) = NetInterrupt →
     (download_dblp w label st).1 = SysExit 0
     ∧ trace (download_dblp w label st).2
       = (trace st ++ [Get (request_url label)])%list).
Proof.
  split; [apply download_dblp_NetError | apply download_dblp_NetInterrupt].
Qed.

(** A record is returned only for a response that passes the check. *)
Lemma download_dblp_Some (label : string) (st : state) (r err : string) :
  (download_dblp w label st).1 = Return (Some r, err) →
  ∃ resp,
    requests_get w (request_url label) = NetResponse resp
    ∧ validate_bib (text resp) = Some true
    ∧ r = Re.sub_key ("{" ++ default label (REVALIAS st !! label) ++ ",")
            (text resp)
    ∧ err = "ERROR key: " ++ request_key label
              ++ ", url: " ++ request_url label.
Proof.
  unfold download_dblp, rewrite_key. run_steps; simpl.
  destruct (requests_get w (request_url label)) as [resp| |] eqn:Hget;
    simpl; try done.
  destruct (validate_bib (text resp)) as [[|]|] eqn:Hok; simpl; try done.
  destruct (decide (text resp = "")) as [He|_];
    [by rewrite He in Hok|]. simpl.
  replace (match REVALIAS st !! label with Some a => a | None => label end)
    with (default label (REVALIAS st !! label))
    by (by destruct (REVALIAS st !! label)).
  destruct (Re.literal_template _); simpl; [|done].
  intros [= <- <-]. by exists resp.
Qed.

(** X17: when the fetcher returns a record, the server answered with a
    text that passes the structural check; the record is that text with
    its key replaced, it is not empty, and the error text that comes with
    it names the key and the address. *)
Theorem download_dblp_record_sound (label : string) (st : state)
    (r err : string) :
  (download_dblp w label st).1 = Return (Some r, err) →
  r ≠ ""
  ∧ ∃ resp,
      requests_get w (request_url label) = NetResponse resp
      ∧ validate_bib (text resp) = Some true
      ∧ r = Re.sub_key ("{" ++ default label (REVALIAS st !! label) ++ ",")
              (text resp)
      ∧ err = "ERROR key: " ++ request_key label
                ++ ", url: " ++ request_url label.
Proof.
  intros (resp & Hget & Hok & -> & ->)%download_dblp_Some.
  split; [by apply sub_key_valid_nonempty|]. by exists resp.
Qed.

(** X18: the replacement takes the text from the first opening brace to
    the last comma of the line: the fields that follow the key on its
    line are replaced with the key. *)
Theorem download_dblp_rewrites_to_last_comma (label : string) (st : state)
    (code : Z) (pre mid rest rep : string) :
  requests_get w (request_url label)
  = NetResponse (Response code (pre ++ "{" ++ mid ++ "," ++ rest)) →
  validate_bib (pre ++ "{" ++ mid ++ "," ++ rest) = Some true →
  rep = default label (REVALIAS st !! label) →
  occurs "{" pre = false →
  mid ≠ "" →
  occurs Py.newline mid = false →
  occurs "," (first_line rest) = false →
  occurs Py.backslash rep = false →
  (download_dblp w label st).1
  = Return (Some (pre ++ "{" ++ rep ++ "," ++ rest),
            "ERROR key: " ++ request_key label
              ++ ", url: " ++ request_url label).
Proof.
  intros Hget Hok -> Hpre Hne Hnl Hrest Hrep.
  rewrite (download_dblp_valid w label st _ Hget Hok
             (literal_template_key _ Hrep)).
  simpl text.
  change (pre ++ "{" ++ mid ++ "," ++ rest)
    with (pre ++ String "{" (mid ++ String "," rest)).
  rewrite sub_key_first by done.
  by rewrite !str_app_assoc.
Qed.

(** X19: a text that passes the check and has no comma, or no opening
    brace, has nothing to replace: when the new key (the alias of the
    label, or the label) has no backslash, the fetcher returns the text
    as it is, with the key of the source, also when the label has an
    alias. *)
Theorem download_dblp_no_match (label : string) (st : state)
    (code : Z) (body : string) :
  requests_get w (request_url label) = NetResponse (Response code body) →
  validate_bib body = Some true →
  occurs "," body = false ∨ occurs "{" body = false →
  occurs Py.backslash (default label (REVALIAS st !! label)) = false →
  (download_dblp w label st).1
  = Return (Some body,
            "ERROR key: " ++ request_key label
              ++ ", url: " ++ request_url label).
Proof.
  intros Hget Hok Hno Hrep.
  rewrite (download_dblp_valid w label st _ Hget Hok
             (literal_template_key _ Hrep)).
  simpl text. do 3 f_equal.
  destruct Hno; [by apply sub_key_no_comma | by apply sub_key_no_brace].
Qed.

End FetchMore.

Lemma download_dblp_network_failure_witness :
  requests_get paper_world (request_url "DOI:10.1000/182") = NetError
  ∧ (download_dblp paper_world "DOI:10.1000/182" initial).1
    = Return (None, "")
  ∧ requests_get interrupted_world (request_url "DOI:10.1000/182")
    = NetInterrupt
  ∧ (download_dblp interrupted_world "DOI:10.1000/182" initial).1
    = SysExit 0.
Proof.
  split; [reflexivity|].
  split; [exact (proj1 (proj1 (download_dblp_network_failure paper_world
                                 "DOI:10.1000/182" initial) eq_refl))|].
  split; [reflexivity|].
  exact (proj1 (proj2 (download_dblp_network_failure interrupted_world
                         "DOI:10.1000/182" initial) eq_refl)).
Defined.

Lemma download_dblp_record_sound_witness :
  (download_dblp (answering 200 smith_record) "DBLP:conf/x/Smith20"
     (with_alias "DBLP:conf/x/Smith20" "smith20")).1
  = Return (Some ("@inproceedings{smith20," ++ nl
                  ++ "  title = {A Title}" ++ nl ++ "}" ++ nl ++ nl),
            "ERROR key: conf/x/Smith20, url: "
            ++ "https://dblp.uni-trier.de/rec/conf/x/Smith20.bib")
  ∧ ∃ resp,
      requests_get (answering 200 smith_record)
        (request_url "DBLP:conf/x/Smith20") = NetResponse resp
      ∧ validate_bib (text resp) = Some true.
Proof.
  assert (H : (download_dblp (answering 200 smith_record)
                 "DBLP:conf/x/Smith20"
                 (with_alias "DBLP:conf/x/Smith20" "smith20")).1
              = Return (Some ("@inproceedings{smith20," ++ nl
                              ++ "  title = {A Title}" ++ nl ++ "}"
                              ++ nl ++ nl),
                        "ERROR key: conf/x/Smith20, url: "
                        ++ "https://dblp.uni-trier.de/rec/conf/x/Smith20.bib"))
    by (vm_compute; reflexivity).
  split; [exact H|].
  destruct (download_dblp_record_sound _ _ _ _ _ H)
    as (_ & resp & H1 & H2 & _).
  exists resp. by split.
Defined.

Lemma download_dblp_rewrites_to_last_comma_witness :
  validate_bib jones_record = Some true
  ∧ (download_dblp (answering 200 jones_record) "DBLP:journals/x/Jones19"
       (with_alias "DBLP:journals/x/Jones19" "jones")).1
    = Return (Some ("@article{jones," ++ nl
                    ++ "  title = {A Title}" ++ nl ++ "}" ++ nl ++ nl),
              "ERROR key: journals/x/Jones19, url: "
              ++ "https://dblp.uni-trier.de/rec/journals/x/Jones19.bib").
Proof.
  split; [reflexivity|].
  refine (download_dblp_rewrites_to_last_comma (answering 200 jones_record)
            "DBLP:journals/x/Jones19"
            (with_alias "DBLP:journals/x/Jones19" "jones")
            200 "@article" "DBLP:journals/x/Jones19, year = {2019}"
            (nl ++ "  title = {A Title}" ++ nl ++ "}" ++ nl ++ nl)
            "jones" _ _ _ _ _ _ _ _);
    [reflexivity | reflexivity | reflexivity | reflexivity | discriminate
    | reflexivity | reflexivity | reflexivity].
Defined.

Lemma download_dblp_no_match_witness :
  validate_bib bare_record = Some true
  ∧ occurs "," bare_record = false
  ∧ REVALIAS (with_alias "DBLP:conf/x/Smith20" "smith20")
      !! "DBLP:conf/x/Smith20" = Some "smith20"
  ∧ (download_dblp (answering 200 bare_record) "DBLP:conf/x/Smith20"
       (with_alias "DBLP:conf/x/Smith20" "smith20")).1
    = Return (Some bare_record,
              "ERROR key: " ++ request_key "DBLP:conf/x/Smith20"
                ++ ", url: " ++ request_url "DBLP:conf/x/Smith20").
Proof.
  split; [reflexivity|]. split; [reflexivity|]. split; [reflexivity|].
  exact (download_dblp_no_match (answering 200 bare_record)
           "DBLP:conf/x/Smith20"
           (with_alias "DBLP:conf/x/Smith20" "smith20") 200 bare_record
           eq_refl eq_refl (or_introl eq_refl) eq_refl).
Defined.

(** ** The loop over the citations *)

Section DownloadRefs.

Variable w : world.

Lemma fetched_REVALIAS (st st0 : state) (c : string) :
  REVALIAS st = REVALIAS st0 → fetched w st c = fetched w st0 c.
Proof. intros H. unfold fetched. by rewrite H. Qed.

Lemma truthy_fetched (st : state) (c : string) :
  truthy (fetched w st c) = bool_decide (is_Some (fetched w st c)).
Proof.
  unfold fetched.
  destruct (requests_get w (request_url c)) as [resp| |]; try done.
  destruct (decide (validate_bib (text resp) = Some true)) as [Hok|]; [|done].
  cbn [truthy]. rewrite (bool_decide_eq_true_2 (is_Some (Some _))) by eauto.
  apply bool_decide_eq_true_2. by apply sub_key_valid_nonempty.
Qed.

(** One call of the fetcher that is not interrupted. *)
Lemma download_dblp_fetched (c : string) (st : state) :
  requests_get w (request_url c) ≠ NetInterrupt →
  occurs Py.backslash (default c (REVALIAS st !! c)) = false →
  ∃ err, (download_dblp w c st).1 = Return (fetched w st c, err).
Proof.
  intros Hint Hrep. unfold fetched.
  destruct (requests_get w (request_url c)) as [resp| |] eqn:Hget; [| |done].
  - destruct (decide (validate_bib (text resp) = Some true)) as [Hok|Hbad].
    + eexists. apply (download_dblp_valid w c st resp Hget Hok).
      by apply literal_template_key.
    + eexists. by apply (download_dblp_invalid w c st resp Hget).
  - eexists. by apply download_dblp_NetError.
Qed.

(** The loop on a list that starts with fetchable citations: they are
    fetched in order, and the loop goes on with the rest. *)
Lemma download_refs_loop_app (total : nat) (before rest : list string)
    (st0 : state) (i : nat) (acc : list string) (n : nat) (st : state) :
  REVALIAS st = REVALIAS st0 →
  fetchable w st0 before →
  ∃ st',
    download_refs_loop w total i (before ++ rest) acc n st
    = download_refs_loop w total (i + length before) rest
        (acc ++ omap (fetched w st0) before)
        (n + length (omap (fetched w st0) before)) st'
    ∧ REVALIAS st' = REVALIAS st0
    ∧ ALIAS st' = ALIAS st
    ∧ gBibStyle st' = gBibStyle st
    ∧ gets (trace st') = (gets (trace st) ++ (request_url <$> before))%list.
Proof.
  revert i acc n st.
  induction before as [|c before IH]; intros i acc n st Hrev Hok.
  - exists st. simpl. rewrite Nat.add_0_r, !app_nil_r.
    replace (n + 0)%nat with n by lia. done.
  - assert (Hc : c ∈ c :: before) by apply list_elem_of_here.
    destruct (Hok c Hc) as [Hint Hrep].
    rewrite <- Hrev in Hrep.
    destruct (download_dblp_fetched c st Hint Hrep) as [err Hd].
    rewrite (fetched_REVALIAS st st0 c Hrev) in Hd.
    destruct (download_dblp w c st) as [o s1] eqn:Hrun.
    simpl in Hd. subst o.
    pose proof (download_dblp_tables w c st) as (HA & HR & HG).
    pose proof (download_dblp_gets w c st) as Hgets.
    rewrite Hrun in HA, HR, HG, Hgets. simpl in HA, HR, HG, Hgets.
    change (download_refs_loop w total i ((c :: before) ++ rest) acc n st)
      with ((download_dblp w c ≫= λ r,
               print (fetch_line i total c r.1 r.2) ;;
               if truthy r.1
               then download_refs_loop w total (S i) (before ++ rest)
                      (acc ++ [default "" r.1]) (S n)
               else download_refs_loop w total (S i) (before ++ rest) acc n)
              st).
    rewrite (bind_Return _ _ st _ s1 Hrun).
    rewrite (bind_Return (print _) _ s1 tt _ eq_refl).
    cbn [fst snd]. rewrite truthy_fetched.
    set (s2 := {| ALIAS := ALIAS s1; REVALIAS := REVALIAS s1;
                  gBibStyle := gBibStyle s1;
                  trace := trace s1 ++ [Print _] |}).
    assert (Hrev2 : REVALIAS s2 = REVALIAS st0) by (simpl; congruence).
    assert (Hok2 : fetchable w st0 before).
    { intros c' Hc'. apply Hok. by apply list_elem_of_further. }
    destruct (fetched w st0 c) as [r|] eqn:Hf.
    + assert (Hom : omap (fetched w st0) (c :: before)
                    = r :: omap (fetched w st0) before)
        by (simpl; by rewrite Hf).
      rewrite bool_decide_eq_true_2 by eauto. cbn [default from_option id].
      destruct (IH (S i) (acc ++ [r])%list (S n) s2 Hrev2 Hok2)
        as (st' & Hrun' & HR' & HA' & HG' & Hgets').
      exists st'. rewrite Hrun', Hom. cbn [length].
      replace (S i + length before)%nat with (i + S (length before))%nat
        by lia.
      replace (S n + length (omap (fetched w st0) before))%nat
        with (n + S (length (omap (fetched w st0) before)))%nat by lia.
      rewrite <- app_assoc.
      split; [done|]. split; [done|]. split; [by rewrite HA'|].
      split; [by rewrite HG'|].
      rewrite Hgets'. unfold s2. cbn [trace].
      rewrite gets_snoc_Print, Hgets, fmap_cons.
      by rewrite <- app_assoc.
    + assert (Hom : omap (fetched w st0) (c :: before)
                    = omap (fetched w st0) before)
        by (simpl; by rewrite Hf).
      rewrite bool_decide_eq_false_2 by (by intros [? ?]).
      destruct (IH (S i) acc n s2 Hrev2 Hok2)
        as (st' & Hrun' & HR' & HA' & HG' & Hgets').
      exists st'. rewrite Hrun', Hom. cbn [length].
      replace (S i + length before)%nat with (i + S (length before))%nat
        by lia.
      split; [done|]. split; [done|]. split; [by rewrite HA'|].
      split; [by rewrite HG'|].
      rewrite Hgets'. unfold s2. cbn [trace].
      rewrite gets_snoc_Print, Hgets, fmap_cons.
      by rewrite <- app_assoc.
Qed.

(** X20: when no request is interrupted and no new key (the alias of
    a citation, or the citation) has a backslash, [download_refs] sends
    one request for each citation, in the order of the list, returns the
    records of the citations whose answer passes the check, in that
    order, and returns their number as the count of successes: a citation
    that fails is left out and does not stop the loop. *)
Theorem download_refs_collects (cs : list string) (st : state) :
  fetchable w st cs →
  (download_refs w cs st).1
  = Return (omap (fetched w st) cs, length (omap (fetched w st) cs))
  ∧ gets (trace (download_refs w cs st).2)
    = (gets (trace st) ++ (request_url <$> cs))%list
  ∧ ALIAS (download_refs w cs st).2 = ALIAS st
  ∧ REVALIAS (download_refs w cs st).2 = REVALIAS st.
Proof.
  intros Hok. unfold download_refs.
  destruct (download_refs_loop_app (length cs) cs [] st 0 [] 0 st
              eq_refl Hok) as (st' & Hrun & HR & HA & _ & Hgets).
  rewrite app_nil_r in Hrun. rewrite Hrun. simpl. done.
Qed.

(** X21: an interrupt from the keyboard during the request for a
    citation ends the run with status 0: the records fetched before it
    are not returned, and the citations after it are not requested. *)
Theorem download_refs_interrupted (before after : list string) (c : string)
    (st : state) :
  fetchable w st before →
  requests_get w (request_url c) = NetInterrupt →
  (download_refs w (before ++ c :: after) st).1 = SysExit 0
  ∧ gets (trace (download_refs w (before ++ c :: after) st).2)
    = (gets (trace st) ++ (request_url <$> before) ++ [request_url c])%list.
Proof.
  intros Hok Hint. unfold download_refs.
  destruct (download_refs_loop_app (length (before ++ c :: after)) before
              (c :: after) st 0 [] 0 st eq_refl Hok)
    as (st' & Hrun & _ & _ & _ & Hgets).
  rewrite Hrun.
  destruct (download_dblp_NetInterrupt w c st' Hint) as [Ho Htr].
  destruct (download_dblp w c st') as [o s1] eqn:Hd. simpl in Ho, Htr.
  subst o.
  assert (Hloop : download_refs_loop w (length (before ++ c :: after))
                    (0 + length before) (c :: after)
                    ([] ++ omap (fetched w st) before)
                    (0 + length (omap (fetched w st) before)) st'
                  = (SysExit 0, s1)).
  { cbn [download_refs_loop]. unfold mbind at 1, Run_bind at 1.
    by rewrite Hd. }
  rewrite Hloop. cbn [fst snd]. split; [done|].
  rewrite Htr, gets_snoc_Get, Hgets. by rewrite <- app_assoc.
Qed.



End DownloadRefs.

Lemma library_fetchable :
  fetchable library_world initial
    ["DBLP:conf/x/Smith20"; "DOI:10.1000/182"; "DOI:10.1000/404";
     "DBLP:journals/x/Jones19"].
Proof.
  intros c Hc%list_elem_of_In. simpl in Hc.
  destruct Hc as [<-|[<-|[<-|[<-|[]]]]]; (split; [by vm_compute | reflexivity]).
Defined.

Lemma download_refs_collects_witness :
  (download_refs library_world
     ["DBLP:conf/x/Smith20"; "DOI:10.1000/182"; "DOI:10.1000/404";
      "DBLP:journals/x/Jones19"] initial).1
  = Return (["@inproceedings{DBLP:conf/x/Smith20," ++ nl
             ++ "  title = {A Title}" ++ nl ++ "}" ++ nl ++ nl;
             "@article{DBLP:journals/x/Jones19," ++ nl
             ++ "  title = {A Title}" ++ nl ++ "}" ++ nl ++ nl], 2%nat)
  ∧ gets (trace (download_refs library_world
                   ["DBLP:conf/x/Smith20"; "DOI:10.1000/182";
                    "DOI:10.1000/404"; "DBLP:journals/x/Jones19"]
                   initial).2)
    = ["https://dblp.uni-trier.de/rec/conf/x/Smith20.bib";
       "https://dblp.org/doi/10.1000/182.bib";
       "https://dblp.org/doi/10.1000/404.bib";
       "https://dblp.uni-trier.de/rec/journals/x/Jones19.bib"].
Proof.
  destruct (download_refs_collects library_world _ initial library_fetchable)
    as (H1 & H2 & _).
  split; [exact H1 | exact H2].
Defined.

Lemma download_refs_interrupted_witness :
  requests_get library_world (request_url "DOI:10.1000/999") = NetInterrupt
  ∧ (download_refs library_world
       (["DBLP:conf/x/Smith20"; "DOI:10.1000/182"; "DOI:10.1000/404";
         "DBLP:journals/x/Jones19"]
        ++ "DOI:10.1000/999" :: ["DBLP:conf/x/Smith20"]) initial).1
    = SysExit 0.
Proof.
  split; [reflexivity|].
  exact (proj1 (download_refs_interrupted library_world _
                  ["DBLP:conf/x/Smith20"] "DOI:10.1000/999" initial
                  library_fetchable eq_refl)).
Defined.


(** ** From the alias file to the output *)



